(** * ArcGIS fire-data pipeline: a shallow embedding of [main.py]

    The script downloads the NASA active-fire feed and the world country
    polygons, keeps the fire points that fall within Brazil, Peru or Bolivia
    and publishes the result to an ArcGIS portal.

    The four stage functions and the [__main__] block are embedded as
    computations in a small trace-and-exception monad.  Everything the script
    obtains from outside (HTTP responses, the parsed files, the answers of the
    portal) is read from a [World] record, so that every theorem below
    quantifies over all possible environments.  The library calls the script
    relies on (pandas, geopandas, shapely, requests, arcgis) are modelled at
    the level of their documented behaviour; each such definition says which
    call it stands for. *)

From Stdlib Require Import List String Ascii Bool Arith ZArith QArith Lia.
From Stdlib Require Import DecimalString Permutation.
Import ListNotations.
Close Scope Q_scope.
Open Scope string_scope.
Open Scope list_scope.

Set Implicit Arguments.

(** ** Constants of the script (lines 15-23) *)

Definition FIRE_DATA_URL : string :=
  "https://firms.modaps.eosdis.nasa.gov/data/active_fire/modis-c6.1/csv/MODIS_C6_1_South_America_7d.csv".
Definition COUNTRIES_URL : string :=
  "https://hub.arcgis.com/datasets/esri::world-countries-generalized.geojson".
Definition COUNTRIES_TO_KEEP : list string := ["Brazil"; "Peru"; "Bolivia"].
Definition PORTAL_URL : string := "https://daniele.maps.arcgis.com/home/content.html".
Definition USERNAME : string := EmptyString.
Definition PASSWORD : string := EmptyString.
Definition ITEM_TITLE : string := "Filtered Fire Data - Brazil, Peru, Bolivia".

(** ** Planar geometry (shapely)

    Coordinates are rationals: every finite floating-point coordinate is one,
    and the script only stores and compares coordinates. *)

Module Geometry.

(** [Point(x, y)] of shapely. *)
Record PointGeom : Type := Point { pt_x : Q; pt_y : Q }.

(** A linear ring is the list of its vertices; the last vertex is joined to
    the first one. *)
Definition Ring : Type := list PointGeom.

Record Polygon : Type := mkPolygon { shell : Ring; holes : list Ring }.

(** The geometry of a country: a polygon or a multi-polygon. *)
Definition Polygonal : Type := list Polygon.

Definition Qlt_bool (a b : Q) : bool := negb (Qle_bool b a).

Definition between (v a b : Q) : bool :=
  (Qle_bool a v && Qle_bool v b) || (Qle_bool b v && Qle_bool v a).

Definition cross (a b p : PointGeom) : Q :=
  ((pt_x b - pt_x a) * (pt_y p - pt_y a)
   - (pt_y b - pt_y a) * (pt_x p - pt_x a))%Q.

Definition edges (r : Ring) : list (PointGeom * PointGeom) :=
  match r with
  | [] => []
  | first :: rest => combine r (rest ++ [first])
  end.

(** The point lies on the closed segment [a b]. *)
Definition on_segment (p : PointGeom) (e : PointGeom * PointGeom) : bool :=
  let (a, b) := e in
  Qeq_bool (cross a b p) 0
  && between (pt_x p) (pt_x a) (pt_x b)
  && between (pt_y p) (pt_y a) (pt_y b).

(** The horizontal ray from [p] towards increasing x crosses the segment. *)
Definition crosses (p : PointGeom) (e : PointGeom * PointGeom) : bool :=
  let (a, b) := e in
  xorb (Qlt_bool (pt_y p) (pt_y a)) (Qlt_bool (pt_y p) (pt_y b))
  && Qlt_bool (pt_x p)
       (pt_x a + (pt_y p - pt_y a) * (pt_x b - pt_x a) / (pt_y b - pt_y a))%Q.

Definition all_rings (g : Polygonal) : list Ring :=
  flat_map (fun poly => shell poly :: holes poly) g.

Definition all_edges (g : Polygonal) : list (PointGeom * PointGeom) :=
  flat_map edges (all_rings g).

(** The point lies on the boundary of the polygonal geometry. *)
Definition on_boundary (p : PointGeom) (g : Polygonal) : bool :=
  existsb (on_segment p) (all_edges g).

(** [p.within(g)] for a point: the point is in the interior of [g], points
    of the boundary excluded.  Point location is the ray-crossing count
    over all rings (shells and holes), as GEOS does for areal geometries. *)
Definition within (p : PointGeom) (g : Polygonal) : bool :=
  negb (on_boundary p g)
  && Nat.odd (List.length (filter (crosses p) (all_edges g))).

(** [p.intersects(g)]: interior or boundary. *)
Definition intersects (p : PointGeom) (g : Polygonal) : bool :=
  on_boundary p g || within p g.

End Geometry.
Export Geometry.

(** ** Data frames (pandas, geopandas) *)

(** A cell of a table: a number or a string. *)
Inductive Cell : Type :=
| CNum (q : Q)
| CStr (s : string).

(** A record of a table, as the association of column names to cells, in
    column order. *)
Definition Record_ : Type := list (string * Cell).

Fixpoint lookup (c : string) (r : Record_) : option Cell :=
  match r with
  | [] => None
  | (k, v) :: r' => if String.eqb c k then Some v else lookup c r'
  end.

Definition mem (c : string) (cs : list string) : bool :=
  existsb (String.eqb c) cs.

(** [pd.DataFrame] read from a CSV file: the index is the default
    [RangeIndex], the position of the record. *)
Record DataFrame : Type := mkDataFrame {
  df_columns : list string;
  df_rows : list Record_
}.

(** A record of a [GeoDataFrame]: its index label, its attribute columns and
    its geometry (the active geometry column, named "geometry"). *)
Record Row (G : Type) : Type := mkRow {
  index : nat;
  attrs : Record_;
  geometry : G
}.

Arguments index {G} _.
Arguments attrs {G} _.
Arguments geometry {G} _.

(** [gpd.GeoDataFrame]; [columns] are the attribute columns, the geometry
    column apart. *)
Record GeoDataFrame (G : Type) : Type := mkGeoDataFrame {
  columns : list string;
  rows : list (Row G)
}.

Arguments columns {G} _.
Arguments rows {G} _.

Definition len {G} (gdf : GeoDataFrame G) : nat := List.length (rows gdf).

(** Every record has exactly the columns of its frame. *)
Definition wf_frame {G} (gdf : GeoDataFrame G) : Prop :=
  Forall (fun r => map fst (attrs r) = columns gdf) (rows gdf).

(** ** The portal (arcgis) *)

Record Item : Type := mkItem {
  item_id : string;
  item_title : string;
  item_type : string;
  item_url : string;
  item_shared : list string;
  item_data : GeoDataFrame PointGeom
}.

(** ** Exceptions, traces and the monad of the script *)

Inductive Exn : Type :=
| HTTPError (status : Z) (reason url : string)  (* requests.exceptions.HTTPError *)
| KeyError (key : string)
| ValueError (msg : string)
| TypeError (msg : string)
| LibraryError (cls msg : string).  (* any other [Exception] a library call raises *)

Definition str_of_nat (n : nat) : string := NilEmpty.string_of_uint (Nat.to_uint n).
Definition str_of_Z (z : Z) : string := NilZero.string_of_int (Z.to_int z).

(** [str(e)] *)
Definition exn_str (e : Exn) : string :=
  match e with
  | HTTPError status reason url =>
      (str_of_Z status
       ++ (if (status <? 500)%Z then " Client Error: " else " Server Error: ")
       ++ reason ++ " for url: " ++ url)%string
  | KeyError key => ("'" ++ key ++ "'")%string
  | ValueError msg => msg
  | TypeError msg => msg
  | LibraryError _ msg => msg
  end.

(** What a run does that can be observed from outside: lines printed to
    standard output and calls that leave the process. *)
Inductive Event : Type :=
| Print (line : string)
| CallReadCsv (url : string)
| CallGet (url : string)
| CallReadFile (text : string)
| CallGIS (url username password : string)
| CallFromGeoDataFrame (gdf : GeoDataFrame PointGeom)
| CallSearch (query type : string)
| CallFromItem (item : Item)
| CallOverwrite (item : Item) (sdf : GeoDataFrame PointGeom)
| CallToFeatureLayer (title : string) (sdf : GeoDataFrame PointGeom).

Definition Trace : Type := list Event.

Definition result (A : Type) : Type := (Exn + A)%type.

(** A computation: the trace it leaves and either the exception it raised or
    its value. *)
Definition M (A : Type) : Type := (Trace * result A)%type.

Definition ret {A} (a : A) : M A := ([], inr a).
Definition raise {A} (e : Exn) : M A := ([], inl e).

Definition bind {A B} (m : M A) (f : A -> M B) : M B :=
  match m with
  | (t, inl e) => (t, inl e)
  | (t, inr a) => let (t', r) := f a in (t ++ t', r)
  end.

Declare Scope py_scope.
Delimit Scope py_scope with py.
Notation "x <- m ;; k" := (bind m (fun x => k))
  (at level 61, m at next level, right associativity) : py_scope.
Notation "m ;; k" := (bind m (fun _ => k))
  (at level 61, right associativity) : py_scope.
Open Scope py_scope.

Definition print (line : string) : M unit := ([Print line], inr tt).

(** A call to the outside: the event is recorded, the answer decides whether
    the call returns or raises. *)
Definition call {A} (ev : Event) (answer : result A) : M A := ([ev], answer).

(** A pure library function that may raise. *)
Definition lift {A} (r : result A) : M A := ([], r).

(** [try: m  except Exception as e: handler(e)] *)
Definition try_except {A} (m : M A) (handler : Exn -> M A) : M A :=
  match m with
  | (t, inl e) => let (t', r) := handler e in (t ++ t', r)
  | (t, inr a) => (t, inr a)
  end.

(** ** The environment of a run *)

(** [requests.Response] *)
Record Response : Type := mkResponse {
  status_code : Z;
  reason : string;
  url : string;
  text : string
}.

Record World : Type := mkWorld {
  (** [pd.read_csv(url)] *)
  read_csv : string -> result DataFrame;
  (** [requests.get(url)] *)
  requests_get : string -> result Response;
  (** [gpd.read_file(text)] *)
  read_file : string -> result (GeoDataFrame Polygonal);
  (** [GIS(url, username, password)] *)
  GIS : string -> string -> string -> result unit;
  (** [GeoAccessor.from_geodataframe(gdf)]: the spatially enabled frame
      holds the records of [gdf]; the conversion may raise. *)
  from_geodataframe : GeoDataFrame PointGeom -> result unit;
  (** [gis.content.search(query, item_type=...)] *)
  content_search : string -> string -> result (list Item);
  (** [FeatureLayerCollection.fromitem(item)] *)
  fromitem : Item -> result unit;
  (** [flc.manager.overwrite(sdf)] *)
  overwrite : Item -> GeoDataFrame PointGeom -> result unit;
  (** [sdf.spatial.to_featurelayer(title=..., gis=gis)] *)
  to_featurelayer : string -> GeoDataFrame PointGeom -> result unit
}.

(** ** Library functions used by the stages *)

Fixpoint map_result {A B} (f : A -> result B) (l : list A) : result (list B) :=
  match l with
  | [] => inr []
  | a :: l' =>
      match f a with
      | inl e => inl e
      | inr b =>
          match map_result f l' with
          | inl e => inl e
          | inr bs => inr (b :: bs)
          end
      end
  end.

(** [row[c]] *)
Definition getitem (c : string) (row : Record_) : result Cell :=
  match lookup c row with
  | Some v => inr v
  | None => inl (KeyError c)
  end.

(** [Point(x, y)] on two cells.  A column that holds text makes the
    construction raise. *)
Definition make_point (x y : Cell) : result PointGeom :=
  match x, y with
  | CNum qx, CNum qy => inr (Point qx qy)
  | CStr s, _ => inl (ValueError ("could not convert string to float: '" ++ s ++ "'")%string)
  | _, CStr s => inl (ValueError ("could not convert string to float: '" ++ s ++ "'")%string)
  end.

(** The lambda of line 30: [Point(row["longitude"], row["latitude"])]. *)
Definition point_of_row (row : Record_) : result PointGeom :=
  match getitem "longitude" row with
  | inl e => inl e
  | inr lon =>
      match getitem "latitude" row with
      | inl e => inl e
      | inr lat => make_point lon lat
      end
  end.

(** What [DataFrame.apply(f, axis=1)] returns: a series with one value per
    record, or, for a frame without records, a copy of the frame. *)
Inductive Applied : Type :=
| Series (values : list PointGeom)
| Frame (df : DataFrame).

Definition apply_axis1 (f : Record_ -> result PointGeom) (df : DataFrame)
  : result Applied :=
  match df_rows df with
  | [] => inr (Frame df)
  | _ :: _ =>
      match map_result f (df_rows df) with
      | inl e => inl e
      | inr values => inr (Series values)
      end
  end.

(** [df["geometry"] = value]: the geometry of each record, in order.
    Assigning a frame of several columns to one column raises. *)
Definition setitem_geometry (df : DataFrame) (value : Applied)
  : result (list (Record_ * PointGeom)) :=
  match value with
  | Series values => inr (combine (df_rows df) values)
  | Frame d =>
      if (1 <? List.length (df_columns d))%nat
      then inl (ValueError
             "Cannot set a DataFrame with multiple columns to the single column geometry")
      else inr []
  end.

Definition remove_col (c : string) (r : Record_) : Record_ :=
  filter (fun kv => negb (String.eqb (fst kv) c)) r.

(** [gpd.GeoDataFrame(df, geometry="geometry", crs="EPSG:4326")]: the
    records keep their position as index label and their columns; the column
    "geometry" is the geometry. *)
Definition to_GeoDataFrame (cols : list string) (rs : list (Record_ * PointGeom))
  : GeoDataFrame PointGeom :=
  {| columns := filter (fun c => negb (String.eqb c "geometry")) cols;
     rows := map (fun ir => {| index := fst ir;
                               attrs := remove_col "geometry" (fst (snd ir));
                               geometry := snd (snd ir) |})
                 (combine (seq 0 (List.length rs)) rs) |}.

(** [response.raise_for_status()] of requests. *)
Definition raise_for_status (response : Response) : result unit :=
  if ((400 <=? status_code response) && (status_code response <? 600))%Z
  then inl (HTTPError (status_code response) (reason response) (url response))
  else inr tt.

(** [value in values] for one cell of [Series.isin(values)]. *)
Definition isin (values : list string) (v : option Cell) : bool :=
  match v with
  | Some (CStr s) => mem s values
  | _ => false
  end.

(** [gdf[gdf[c].isin(values)]]: [KeyError] when the column is absent. *)
Definition select_isin {G} (c : string) (values : list string) (gdf : GeoDataFrame G)
  : result (GeoDataFrame G) :=
  if mem c (columns gdf)
  then inr {| columns := columns gdf;
              rows := filter (fun r => isin values (lookup c (attrs r))) (rows gdf) |}
  else inl (KeyError c).

(** The name of a column after the join: suffixed when the other frame has
    a column of the same name. *)
Definition suffixed (others : list string) (suffix c : string) : string :=
  if mem c others then (c ++ suffix)%string else c.

Definition rename_keys (f : string -> string) (r : Record_) : Record_ :=
  map (fun kv => (f (fst kv), snd kv)) r.

Definition index_cell (i : nat) : Cell := CNum (inject_Z (Z.of_nat i)).

(** The record of the join for a pair (left record, right record). *)
Definition join_rows (lname rname : string -> string)
  (l : Row PointGeom) (r : Row Polygonal) : Row PointGeom :=
  {| index := index l;
     attrs := rename_keys lname (attrs l)
              ++ ("index_right", index_cell (index r)) :: rename_keys rname (attrs r);
     geometry := geometry l |}.

(** The right records that a left record is joined to. *)
Definition matches (l : Row PointGeom) (right_df : GeoDataFrame Polygonal)
  : list (Row Polygonal) :=
  filter (fun r => within (geometry l) (geometry r)) (rows right_df).

(** The index of either frame is turned into a column "index_left" or
    "index_right" during the join: no column may already have such a name. *)
Definition has_index_names {G G'} (left_df : GeoDataFrame G) (right_df : GeoDataFrame G')
  : bool :=
  existsb (fun c => mem c ["index_left"; "index_right"])
          (columns left_df ++ columns right_df).

(** The merge inside the join refuses suffixes that create a duplicate
    label.  [cols] are the labels still to be read, [seen_after] and
    [seen_before] the labels to their left, after and before renaming by
    [f]: a label counts when renaming puts it on a label already seen while
    the label itself had not been seen. *)
Fixpoint suffix_duplicates (f : string -> string)
  (seen_after seen_before cols : list string) : bool :=
  match cols with
  | [] => false
  | c :: cols' =>
      (mem (f c) seen_after && negb (mem c seen_before))
      || suffix_duplicates f (f c :: seen_after) (c :: seen_before) cols'
  end.

(** The labels of either side start with the column of its index. *)
Definition suffix_clash {G G'} (left_df : GeoDataFrame G) (right_df : GeoDataFrame G')
  : bool :=
  suffix_duplicates (suffixed (columns right_df) "_left")
                    ["index_left"] ["index_left"] (columns left_df)
  || suffix_duplicates (suffixed (columns left_df) "_right")
                       ["index_right"] ["index_right"] (columns right_df).

Definition sjoin_rows (lname rname : string -> string)
  (left_df : GeoDataFrame PointGeom) (right_df : GeoDataFrame Polygonal)
  : list (Row PointGeom) :=
  flat_map (fun l => map (join_rows lname rname l) (matches l right_df)) (rows left_df).

(** [gpd.sjoin(left_df, right_df, how="inner", predicate="within")]: one
    record per pair of a left record and a right record whose geometry the
    left one is within, ordered by left then right position.  It keeps the
    left index and geometry, the left columns, the right index as column
    "index_right" and the right attribute columns; columns present on both
    sides get the suffixes "_left" and "_right".  Both frames have the
    default, unnamed index, as the frames of the script have.  The join
    raises [ValueError] when a column has the name of an index column, and
    the merge it relies on raises [MergeError] when the suffixes create a
    duplicate label (so when both frames have a column "index"). *)
Definition sjoin (left_df : GeoDataFrame PointGeom) (right_df : GeoDataFrame Polygonal)
  : result (GeoDataFrame PointGeom) :=
  if has_index_names left_df right_df
  then inl (ValueError
         "'index_left' and 'index_right' cannot be names in the frames being joined")
  else if suffix_clash left_df right_df
  then inl (LibraryError "pandas.errors.MergeError"
         "Passing 'suffixes' which cause duplicate columns is not allowed.")
  else
    let lname := suffixed (columns right_df) "_left" in
    let rname := suffixed (columns left_df) "_right" in
    inr {| columns := map lname (columns left_df)
                      ++ "index_right" :: map rname (columns right_df);
           rows := sjoin_rows lname rname left_df right_df |}.

Definition drop_row {G} (cs : list string) (r : Row G) : Row G :=
  {| index := index r;
     attrs := filter (fun kv => negb (mem (fst kv) cs)) (attrs r);
     geometry := geometry r |}.

(** [gdf.drop(columns=cs)]: [KeyError] when a label is not a column. *)
Definition drop {G} (cs : list string) (gdf : GeoDataFrame G) : result (GeoDataFrame G) :=
  match find (fun c => negb (mem c (columns gdf))) cs with
  | Some c => inl (KeyError ("['" ++ c ++ "'] not found in axis")%string)
  | None =>
      inr {| columns := filter (fun c => negb (mem c cs)) (columns gdf);
             rows := map (drop_row cs) (rows gdf) |}
  end.

(** ** The stages (lines 26-75) *)

Definition fetch_fire_data (w : World) : M (GeoDataFrame PointGeom) :=
  print "Fetching fire data..." ;;
  fire_df <- call (CallReadCsv FIRE_DATA_URL) (read_csv w FIRE_DATA_URL) ;;
  applied <- lift (apply_axis1 point_of_row fire_df) ;;
  with_geometry <- lift (setitem_geometry fire_df applied) ;;
  ret (to_GeoDataFrame (df_columns fire_df) with_geometry).

Definition fetch_country_boundaries (w : World) : M (GeoDataFrame Polygonal) :=
  print "Fetching country boundaries..." ;;
  response <- call (CallGet COUNTRIES_URL) (requests_get w COUNTRIES_URL) ;;
  lift (raise_for_status response) ;;
  world_gdf <- call (CallReadFile (text response)) (read_file w (text response)) ;;
  world_gdf <- lift (select_isin "COUNTRY" COUNTRIES_TO_KEEP world_gdf) ;;
  ret world_gdf.

Definition filter_fire_data (fire_gdf : GeoDataFrame PointGeom)
  (countries_gdf : GeoDataFrame Polygonal) : M (GeoDataFrame PointGeom) :=
  print "Filtering fire data..." ;;
  filtered_gdf <- lift (sjoin fire_gdf countries_gdf) ;;
  lift (drop ["index_right"] filtered_gdf).

Definition publish_to_arcgis (w : World) (filtered_gdf : GeoDataFrame PointGeom)
  : M unit :=
  print "Publishing to ArcGIS Online..." ;;
  call (CallGIS PORTAL_URL USERNAME PASSWORD) (GIS w PORTAL_URL USERNAME PASSWORD) ;;
  call (CallFromGeoDataFrame filtered_gdf) (from_geodataframe w filtered_gdf) ;;
  let sdf := filtered_gdf in
  existing_items <- call (CallSearch ITEM_TITLE "Feature Layer")
                         (content_search w ITEM_TITLE "Feature Layer") ;;
  match existing_items with
  | item :: _ =>
      print "Updating existing layer..." ;;
      call (CallFromItem item) (fromitem w item) ;;
      call (CallOverwrite item sdf) (overwrite w item sdf)
  | [] =>
      print "Creating a new feature layer..." ;;
      call (CallToFeatureLayer ITEM_TITLE sdf) (to_featurelayer w ITEM_TITLE sdf)
  end ;;
  print "Publishing complete!".

(** ** The [__main__] block (lines 78-89) *)

(** The body of the [try]. *)
Definition pipeline (w : World) : M unit :=
  fire_gdf <- fetch_fire_data w ;;
  countries_gdf <- fetch_country_boundaries w ;;
  filtered_gdf <- filter_fire_data fire_gdf countries_gdf ;;
  print ("Filtered " ++ str_of_nat (len filtered_gdf) ++ " fire records.")%string ;;
  publish_to_arcgis w filtered_gdf ;;
  print "Process completed successfully!".

Definition main (w : World) : M unit :=
  try_except (pipeline w) (fun e => print ("Error: " ++ exn_str e)%string).

(** ** What the operating system and the portal see of a run *)

Definition exn_class (e : Exn) : string :=
  match e with
  | HTTPError _ _ _ => "requests.exceptions.HTTPError"
  | KeyError _ => "KeyError"
  | ValueError _ => "ValueError"
  | TypeError _ => "TypeError"
  | LibraryError cls _ => cls
  end.

Definition stdout_of (t : Trace) : list string :=
  flat_map (fun ev => match ev with Print line => [line] | _ => [] end) t.

Definition is_mutation (ev : Event) : bool :=
  match ev with
  | CallOverwrite _ _ | CallToFeatureLayer _ _ => true
  | _ => false
  end.

(** The calls of a run that change the content of the portal. *)
Definition mutations (t : Trace) : Trace := filter is_mutation t.

(** The calls of a run that leave the process. *)
Definition calls (t : Trace) : Trace :=
  filter (fun ev => match ev with Print _ => false | _ => true end) t.

Record Process : Type := mkProcess {
  stdout : list string;
  stderr : list string;
  exit_code : Z
}.

(** Running a script body with the Python interpreter: an exception that
    reaches the top is reported on standard error with exit code 1. *)
Definition python (script : M unit) : Process :=
  match script with
  | (t, inr _) => {| stdout := stdout_of t; stderr := []; exit_code := 0 |}
  | (t, inl e) =>
      {| stdout := stdout_of t;
         stderr := ["Traceback (most recent call last):";
                    (exn_class e ++ ": " ++ exn_str e)%string];
         exit_code := 1 |}
  end.

(** How many records of a frame carry the index label [i]. *)
Definition occurrences {G} (i : nat) (gdf : GeoDataFrame G) : nat :=
  List.length (filter (fun r => Nat.eqb (index r) i) (rows gdf)).

Definition is_portal_call (ev : Event) : bool :=
  match ev with
  | CallGIS _ _ _ | CallFromGeoDataFrame _ | CallSearch _ _ | CallFromItem _
  | CallOverwrite _ _ | CallToFeatureLayer _ _ => true
  | _ => false
  end.


(** [library_error w e]: in the environment [w] the run reaches a library
    call that raises [e], every library call before it having returned. *)
Inductive library_error (w : World) (e : Exn) : Prop :=
| err_read_csv :
    read_csv w FIRE_DATA_URL = inl e -> library_error w e
| err_apply fire_df :
    read_csv w FIRE_DATA_URL = inr fire_df ->
    apply_axis1 point_of_row fire_df = inl e -> library_error w e
| err_setitem fire_df applied :
    read_csv w FIRE_DATA_URL = inr fire_df ->
    apply_axis1 point_of_row fire_df = inr applied ->
    setitem_geometry fire_df applied = inl e -> library_error w e
| err_get t1 fire_gdf :
    fetch_fire_data w = (t1, inr fire_gdf) ->
    requests_get w COUNTRIES_URL = inl e -> library_error w e
| err_status t1 fire_gdf response :
    fetch_fire_data w = (t1, inr fire_gdf) ->
    requests_get w COUNTRIES_URL = inr response ->
    raise_for_status response = inl e -> library_error w e
| err_read_file t1 fire_gdf response :
    fetch_fire_data w = (t1, inr fire_gdf) ->
    requests_get w COUNTRIES_URL = inr response ->
    raise_for_status response = inr tt ->
    read_file w (text response) = inl e -> library_error w e
| err_column t1 fire_gdf response world_gdf :
    fetch_fire_data w = (t1, inr fire_gdf) ->
    requests_get w COUNTRIES_URL = inr response ->
    raise_for_status response = inr tt ->
    read_file w (text response) = inr world_gdf ->
    select_isin "COUNTRY" COUNTRIES_TO_KEEP world_gdf = inl e -> library_error w e
| err_sjoin t1 fire_gdf t2 countries_gdf :
    fetch_fire_data w = (t1, inr fire_gdf) ->
    fetch_country_boundaries w = (t2, inr countries_gdf) ->
    sjoin fire_gdf countries_gdf = inl e -> library_error w e
| err_drop t1 fire_gdf t2 countries_gdf joined :
    fetch_fire_data w = (t1, inr fire_gdf) ->
    fetch_country_boundaries w = (t2, inr countries_gdf) ->
    sjoin fire_gdf countries_gdf = inr joined ->
    drop ["index_right"] joined = inl e -> library_error w e
| err_login t1 fire_gdf t2 countries_gdf t3 filtered_gdf :
    fetch_fire_data w = (t1, inr fire_gdf) ->
    fetch_country_boundaries w = (t2, inr countries_gdf) ->
    filter_fire_data fire_gdf countries_gdf = (t3, inr filtered_gdf) ->
    GIS w PORTAL_URL USERNAME PASSWORD = inl e -> library_error w e
| err_convert t1 fire_gdf t2 countries_gdf t3 filtered_gdf :
    fetch_fire_data w = (t1, inr fire_gdf) ->
    fetch_country_boundaries w = (t2, inr countries_gdf) ->
    filter_fire_data fire_gdf countries_gdf = (t3, inr filtered_gdf) ->
    GIS w PORTAL_URL USERNAME PASSWORD = inr tt ->
    from_geodataframe w filtered_gdf = inl e -> library_error w e
| err_search t1 fire_gdf t2 countries_gdf t3 filtered_gdf :
    fetch_fire_data w = (t1, inr fire_gdf) ->
    fetch_country_boundaries w = (t2, inr countries_gdf) ->
    filter_fire_data fire_gdf countries_gdf = (t3, inr filtered_gdf) ->
    GIS w PORTAL_URL USERNAME PASSWORD = inr tt ->
    from_geodataframe w filtered_gdf = inr tt ->
    content_search w ITEM_TITLE "Feature Layer" = inl e -> library_error w e
| err_fromitem t1 fire_gdf t2 countries_gdf t3 filtered_gdf item items :
    fetch_fire_data w = (t1, inr fire_gdf) ->
    fetch_country_boundaries w = (t2, inr countries_gdf) ->
    filter_fire_data fire_gdf countries_gdf = (t3, inr filtered_gdf) ->
    GIS w PORTAL_URL USERNAME PASSWORD = inr tt ->
    from_geodataframe w filtered_gdf = inr tt ->
    content_search w ITEM_TITLE "Feature Layer" = inr (item :: items) ->
    fromitem w item = inl e -> library_error w e
| err_overwrite t1 fire_gdf t2 countries_gdf t3 filtered_gdf item items :
    fetch_fire_data w = (t1, inr fire_gdf) ->
    fetch_country_boundaries w = (t2, inr countries_gdf) ->
    filter_fire_data fire_gdf countries_gdf = (t3, inr filtered_gdf) ->
    GIS w PORTAL_URL USERNAME PASSWORD = inr tt ->
    from_geodataframe w filtered_gdf = inr tt ->
    content_search w ITEM_TITLE "Feature Layer" = inr (item :: items) ->
    fromitem w item = inr tt ->
    overwrite w item filtered_gdf = inl e -> library_error w e
| err_create t1 fire_gdf t2 countries_gdf t3 filtered_gdf :
    fetch_fire_data w = (t1, inr fire_gdf) ->
    fetch_country_boundaries w = (t2, inr countries_gdf) ->
    filter_fire_data fire_gdf countries_gdf = (t3, inr filtered_gdf) ->
    GIS w PORTAL_URL USERNAME PASSWORD = inr tt ->
    from_geodataframe w filtered_gdf = inr tt ->
    content_search w ITEM_TITLE "Feature Layer" = inr [] ->
    to_featurelayer w ITEM_TITLE filtered_gdf = inl e -> library_error w e.

(** ** The content of the portal

    What the two mutating requests do to the items of the portal.
    Overwriting the feature layer collection of an item replaces the data of
    that hosted layer and leaves the item as it is; publishing a frame as a
    feature layer adds an item of the given title, to which the portal gives
    an ID, a URL and sharing settings ([fresh]). *)

Definition overwritten (target : Item) (sdf : GeoDataFrame PointGeom) (it : Item) : Item :=
  if String.eqb (item_id it) (item_id target)
  then {| item_id := item_id it;
          item_title := item_title it;
          item_type := item_type it;
          item_url := item_url it;
          item_shared := item_shared it;
          item_data := sdf |}
  else it.

Definition created (fresh : Item) (title : string) (sdf : GeoDataFrame PointGeom) : Item :=
  {| item_id := item_id fresh;
     item_title := title;
     item_type := "Feature Layer";
     item_url := item_url fresh;
     item_shared := item_shared fresh;
     item_data := sdf |}.

Definition portal_step (fresh : Item) (items : list Item) (ev : Event) : list Item :=
  match ev with
  | CallOverwrite target sdf => map (overwritten target sdf) items
  | CallToFeatureLayer title sdf => items ++ [created fresh title sdf]
  | _ => items
  end.

(** The items of the portal after the requests of a run that all returned. *)
Definition portal_after (fresh : Item) (items : list Item) (t : Trace) : list Item :=
  fold_left (portal_step fresh) t items.

(** ** The three-country scenario

    The classes of fire points of the scenario with Brazil, Peru and Bolivia:
    strictly inside Brazil and inside no other country, on the border that
    Peru and Bolivia share, and outside all three. *)

Section Scenario.

Variables brazil peru bolivia : Row Polygonal.

Definition inside_brazil (f : Row PointGeom) : bool :=
  within (geometry f) (geometry brazil)
  && negb (within (geometry f) (geometry peru))
  && negb (within (geometry f) (geometry bolivia)).

Definition on_shared_border (f : Row PointGeom) : bool :=
  on_boundary (geometry f) (geometry peru)
  && on_boundary (geometry f) (geometry bolivia)
  && negb (within (geometry f) (geometry brazil)).

Definition outside_all (f : Row PointGeom) : bool :=
  negb (intersects (geometry f) (geometry brazil))
  && negb (intersects (geometry f) (geometry peru))
  && negb (intersects (geometry f) (geometry bolivia)).

End Scenario.

(** ** Sample data *)

Module Sample.

Definition pt (x y : Z) : PointGeom := Point (inject_Z x) (inject_Z y).

(** The rectangle of corners (x0, y0) and (x1, y1). *)
Definition rectangle (x0 y0 x1 y1 : Z) : Polygonal :=
  [mkPolygon [pt x0 y0; pt x1 y0; pt x1 y1; pt x0 y1] []].

Definition country (i : nat) (name iso : string) (g : Polygonal) : Row Polygonal :=
  {| index := i; attrs := [("COUNTRY", CStr name); ("ISO", CStr iso)]; geometry := g |}.

(** Three countries; Peru and Bolivia share the border x = 30. *)
Definition brazil : Row Polygonal := country 30 "Brazil" "BR" (rectangle 0 0 10 10).
Definition peru : Row Polygonal := country 170 "Peru" "PE" (rectangle 20 0 30 10).
Definition bolivia : Row Polygonal := country 26 "Bolivia" "BO" (rectangle 30 0 40 10).
Definition chile : Row Polygonal := country 43 "Chile" "CL" (rectangle 20 (-30) 30 0).

Definition world_gdf : GeoDataFrame Polygonal :=
  {| columns := ["COUNTRY"; "ISO"]; rows := [bolivia; brazil; chile; peru] |}.

Definition countries_gdf : GeoDataFrame Polygonal :=
  {| columns := ["COUNTRY"; "ISO"]; rows := [brazil; peru; bolivia] |}.

Definition fire_record (lon lat : Q) : Record_ :=
  [("latitude", CNum lat); ("longitude", CNum lon); ("confidence", CNum (inject_Z 80));
   ("daynight", CStr "D")].

Definition fire_columns : list string :=
  ["latitude"; "longitude"; "confidence"; "daynight"].

(** One point inside Brazil, one on the Peru/Bolivia border, one outside. *)
Definition fire_df : DataFrame :=
  {| df_columns := fire_columns;
     df_rows := [fire_record (inject_Z 5) (inject_Z 5);
                 fire_record (inject_Z 30) (inject_Z 5);
                 fire_record (inject_Z 100) (inject_Z 100)] |}.

(** The frame the fire fetcher builds from [fire_df]. *)
Definition fire_gdf : GeoDataFrame PointGeom :=
  to_GeoDataFrame fire_columns
    (combine (df_rows fire_df) [pt 5 5; pt 30 5; pt 100 100]).

Definition fire_row (i : nat) (lon lat : Q) : Row PointGeom :=
  {| index := i; attrs := fire_record lon lat; geometry := Point lon lat |}.

(** Two retained polygons that overlap for 8 < x < 10, and a fire point in
    the overlap. *)
Definition overlap_countries : GeoDataFrame Polygonal :=
  {| columns := ["COUNTRY"; "ISO"];
     rows := [brazil; country 170 "Peru" "PE" (rectangle 8 0 30 10)] |}.

Definition overlap_fires : GeoDataFrame PointGeom :=
  {| columns := fire_columns;
     rows := [fire_row 0 (inject_Z 9) (inject_Z 5); fire_row 1 (inject_Z 5) (inject_Z 5)] |}.

(** A hundred fire points: 40 inside Brazil, 10 on the border x = 30 of Peru
    and Bolivia, 50 outside the three countries. *)
Definition inside_points : list (Row PointGeom) :=
  map (fun i => fire_row i (Qmake (Z.of_nat (i + 1)) 5) (inject_Z 5)) (seq 0 40).

Definition border_points : list (Row PointGeom) :=
  map (fun i => fire_row (40 + i) (inject_Z 30) (Qmake (Z.of_nat (i + 1)) 2)) (seq 0 10).

Definition outside_points : list (Row PointGeom) :=
  map (fun i => fire_row (50 + i) (inject_Z (Z.of_nat (100 + i))) (inject_Z 50)) (seq 0 50).

Definition hundred_fires : GeoDataFrame PointGeom :=
  {| columns := fire_columns;
     rows := inside_points ++ border_points ++ outside_points |}.

(** The value the spatial filter returns, or an empty frame if it raises. *)
Definition filtered (fire_gdf : GeoDataFrame PointGeom)
  (countries_gdf : GeoDataFrame Polygonal) : GeoDataFrame PointGeom :=
  match snd (filter_fire_data fire_gdf countries_gdf) with
  | inr res => res
  | inl _ => {| columns := []; rows := [] |}
  end.

Definition hundred_filtered : GeoDataFrame PointGeom :=
  Eval vm_compute in filtered hundred_fires countries_gdf.

Definition overlap_filtered : GeoDataFrame PointGeom :=
  Eval vm_compute in filtered overlap_fires overlap_countries.

(** A fire feed that has a column COUNTRY of its own. *)
Definition tagged_record : Record_ :=
  [("latitude", CNum (inject_Z 5)); ("longitude", CNum (inject_Z 5));
   ("COUNTRY", CStr "BR")].

Definition tagged_fires : GeoDataFrame PointGeom :=
  {| columns := ["latitude"; "longitude"; "COUNTRY"];
     rows := [{| index := 0; attrs := tagged_record; geometry := pt 5 5 |}] |}.

Definition tagged_filtered : GeoDataFrame PointGeom :=
  Eval vm_compute in filtered tagged_fires countries_gdf.

Definition sample_filtered : GeoDataFrame PointGeom :=
  Eval vm_compute in filtered fire_gdf countries_gdf.

(** The record of [sample_filtered]: the fire inside Brazil, joined to Brazil. *)
Definition sample_record : Row PointGeom :=
  {| index := 0;
     attrs := fire_record (inject_Z 5) (inject_Z 5)
              ++ [("COUNTRY", CStr "Brazil"); ("ISO", CStr "BR")];
     geometry := pt 5 5 |}.

Definition ok_response (status : Z) (phrase : string) : Response :=
  {| status_code := status; reason := phrase; url := COUNTRIES_URL;
     text := "FeatureCollection" |}.

(** An environment in which the portal accepts every request. *)
Definition make_world (feed : result DataFrame) (response : result Response)
  (parsed : result (GeoDataFrame Polygonal))
  (search : string -> string -> result (list Item)) : World :=
  {| read_csv := fun _ => feed;
     requests_get := fun _ => response;
     read_file := fun _ => parsed;
     GIS := fun _ _ _ => inr tt;
     from_geodataframe := fun _ => inr tt;
     content_search := search;
     fromitem := fun _ => inr tt;
     overwrite := fun _ _ => inr tt;
     to_featurelayer := fun _ _ => inr tt |}.

(** A portal without content. *)
Definition world : World :=
  make_world (inr fire_df) (inr (ok_response 200 "OK")) (inr world_gdf)
             (fun _ _ => inr []).

(** The same, but the boundary request is answered with [status]. *)
Definition world_with_status (status : Z) (phrase : string) : World :=
  make_world (inr fire_df) (inr (ok_response status phrase)) (inr world_gdf)
             (fun _ _ => inr []).

(** A keyword search: the items of the given type whose title contains the
    query. *)
Fixpoint contains (q s : string) : bool :=
  prefix q s
  || match s with
     | EmptyString => false
     | String _ s' => contains q s'
     end.

Definition keyword_search (items : list Item) (q ty : string) : result (list Item) :=
  inr (filter (fun it => String.eqb (item_type it) ty && contains q (item_title it))
              items).

(** A layer of another title, which contains the title of the script. *)
Definition archive_item : Item :=
  {| item_id := "0a1b2c3d";
     item_title := "Filtered Fire Data - Brazil, Peru, Bolivia (2023 archive)";
     item_type := "Feature Layer";
     item_url := "https://services.arcgis.com/0a1b2c3d/FeatureServer";
     item_shared := ["org"];
     item_data := {| columns := []; rows := [] |} |}.

Definition world_with_archive : World :=
  make_world (inr fire_df) (inr (ok_response 200 "OK")) (inr world_gdf)
             (keyword_search [archive_item]).


(** Environments in which something fails. *)

(** The feed has no column longitude. *)
Definition feed_without_longitude : DataFrame :=
  {| df_columns := ["latitude"; "confidence"];
     df_rows := [[("latitude", CNum (inject_Z 5)); ("confidence", CNum (inject_Z 80))]] |}.

Definition world_without_longitude : World :=
  make_world (inr feed_without_longitude) (inr (ok_response 200 "OK")) (inr world_gdf)
             (fun _ _ => inr []).

(** The boundaries have no column COUNTRY. *)
Definition world_without_country_column : World :=
  make_world (inr fire_df) (inr (ok_response 200 "OK"))
             (inr {| columns := ["NAME"];
                     rows := [{| index := 0; attrs := [("NAME", CStr "Brazil")];
                                 geometry := rectangle 0 0 10 10 |}] |})
             (fun _ _ => inr []).


(** The portal refuses the login. *)
Definition world_with_locked_portal : World :=
  {| read_csv := fun _ => inr fire_df;
     requests_get := fun _ => inr (ok_response 200 "OK");
     read_file := fun _ => inr world_gdf;
     GIS := fun _ _ _ => inl (LibraryError "Exception" "Invalid username or password.");
     from_geodataframe := fun _ => inr tt;
     content_search := fun _ _ => inr [];
     fromitem := fun _ => inr tt;
     overwrite := fun _ _ => inr tt;
     to_featurelayer := fun _ _ => inr tt |}.

(** The portal refuses the creation of the layer. *)
Definition world_with_full_portal : World :=
  {| read_csv := fun _ => inr fire_df;
     requests_get := fun _ => inr (ok_response 200 "OK");
     read_file := fun _ => inr world_gdf;
     GIS := fun _ _ _ => inr tt;
     from_geodataframe := fun _ => inr tt;
     content_search := fun _ _ => inr [];
     fromitem := fun _ => inr tt;
     overwrite := fun _ _ => inr tt;
     to_featurelayer := fun _ _ => inl (LibraryError "Exception" "Quota exceeded.") |}.

End Sample.

(** * Properties *)

(** ** The monad *)

Lemma bind_inr_inv {A B} (m : M A) (f : A -> M B) t b :
  bind m f = (t, inr b) ->
  exists t1 a t2, m = (t1, inr a) /\ f a = (t2, inr b) /\ t = t1 ++ t2.
Proof.
  unfold bind. destruct m as [t1 [e | a]]; [discriminate |].
  destruct (f a) as [t2 r] eqn:Hf. intros H. inversion H; subst.
  exists t1, a, t2. auto.
Qed.

Lemma bind_inl_inv {A B} (m : M A) (f : A -> M B) t e :
  bind m f = (t, inl e) ->
  m = (t, inl e)
  \/ exists t1 a t2, m = (t1, inr a) /\ f a = (t2, inl e) /\ t = t1 ++ t2.
Proof.
  unfold bind. destruct m as [t1 [e1 | a]].
  - intros H. inversion H; subst. now left.
  - destruct (f a) as [t2 r] eqn:Hf. intros H. inversion H; subst.
    right. exists t1, a, t2. auto.
Qed.

Lemma bind_ok {A B} (m : M A) (f : A -> M B) t1 a :
  m = (t1, inr a) -> bind m f = (t1 ++ fst (f a), snd (f a)).
Proof. intros ->. unfold bind. now destruct (f a). Qed.

Lemma bind_raise {A B} (m : M A) (f : A -> M B) t e :
  m = (t, inl e) -> bind m f = (t, inl e).
Proof. now intros ->. Qed.

Lemma mutations_app t1 t2 : mutations (t1 ++ t2) = mutations t1 ++ mutations t2.
Proof. apply filter_app. Qed.

Lemma stdout_of_app t1 t2 : stdout_of (t1 ++ t2) = stdout_of t1 ++ stdout_of t2.
Proof. apply flat_map_app. Qed.

(** ** Boundary fetcher *)

Lemma mem_In c cs : mem c cs = true <-> In c cs.
Proof.
  unfold mem. rewrite existsb_exists. split.
  - intros [k [Hk He]]. apply String.eqb_eq in He. now subst.
  - intros H. exists c. split; [assumption | apply String.eqb_refl].
Qed.

Lemma fetch_country_boundaries_inv w t gdf :
  fetch_country_boundaries w = (t, inr gdf) ->
  exists response world_gdf,
    requests_get w COUNTRIES_URL = inr response
    /\ raise_for_status response = inr tt
    /\ read_file w (text response) = inr world_gdf
    /\ mem "COUNTRY" (columns world_gdf) = true
    /\ gdf = {| columns := columns world_gdf;
                rows := filter (fun r => isin COUNTRIES_TO_KEEP (lookup "COUNTRY" (attrs r)))
                               (rows world_gdf) |}.
Proof.
  unfold fetch_country_boundaries, bind, call, lift, print, ret, select_isin.
  destruct (requests_get w COUNTRIES_URL) as [e | response] eqn:Hget; [discriminate |].
  destruct (raise_for_status response) as [e | []] eqn:Hstatus; [discriminate |].
  destruct (read_file w (text response)) as [e | world_gdf] eqn:Hread; [discriminate |].
  destruct (mem "COUNTRY" (columns world_gdf)) eqn:Hc; [| discriminate].
  intros H. inversion H; subst. exists response, world_gdf.
  repeat split; auto.
Qed.

(** C4. Every record the boundary fetcher retains has, in its column
    COUNTRY, exactly one of the strings "Brazil", "Peru", "Bolivia"; the
    retained records are records of the downloaded frame. *)
Theorem retained_countries_in_allow_list (w : World) t gdf :
  fetch_country_boundaries w = (t, inr gdf) ->
  forall r, In r (rows gdf) ->
    exists name, lookup "COUNTRY" (attrs r) = Some (CStr name)
                 /\ (name = "Brazil" \/ name = "Peru" \/ name = "Bolivia").
Proof.
  intros H r Hr.
  destruct (fetch_country_boundaries_inv _ H)
    as (response & world_gdf & _ & _ & _ & _ & ->).
  simpl in Hr. apply filter_In in Hr. destruct Hr as [_ Hr].
  unfold isin in Hr. destruct (lookup "COUNTRY" (attrs r)) as [[q | name] |];
    try discriminate.
  exists name. split; [reflexivity |].
  apply mem_In in Hr. simpl in Hr. intuition auto.
Qed.

(** The match is on the exact string: another spelling is not retained. *)
Example isin_is_case_sensitive :
  isin COUNTRIES_TO_KEEP (Some (CStr "brazil")) = false
  /\ isin COUNTRIES_TO_KEEP (Some (CStr "Brazil ")) = false
  /\ isin COUNTRIES_TO_KEEP (Some (CStr "Brazil")) = true.
Proof. repeat split; reflexivity. Qed.

Lemma retained_countries_in_allow_list_witness :
  exists name, lookup "COUNTRY" (attrs Sample.peru) = Some (CStr name)
               /\ (name = "Brazil" \/ name = "Peru" \/ name = "Bolivia").
Proof.
  apply (@retained_countries_in_allow_list Sample.world
           (fst (fetch_country_boundaries Sample.world))
           {| columns := ["COUNTRY"; "ISO"];
              rows := [Sample.bolivia; Sample.brazil; Sample.peru] |}).
  - reflexivity.
  - simpl. auto.
Defined.

(** ** Fire data fetcher *)

Lemma map_result_nth {A B} (f : A -> result B) l bs :
  map_result f l = inr bs ->
  List.length bs = List.length l
  /\ forall i a, nth_error l i = Some a ->
       exists b, nth_error bs i = Some b /\ f a = inr b.
Proof.
  revert bs. induction l as [| a l IH]; intros bs H; simpl in H.
  - inversion H; subst. split; [reflexivity |]. intros [| i] a0 Hn; discriminate.
  - destruct (f a) as [e | b] eqn:Hf; [discriminate |].
    destruct (map_result f l) as [e | bs'] eqn:Hm; [discriminate |].
    inversion H; subst. destruct (IH bs' eq_refl) as [Hlen Hnth].
    split; [simpl; congruence |].
    intros [| i] a0 Hn; simpl in Hn.
    + inversion Hn; subst. exists b. auto.
    + apply Hnth. assumption.
Qed.

Lemma nth_error_enumerate {A} (l : list A) s i x :
  nth_error l i = Some x ->
  nth_error (combine (seq s (List.length l)) l) i = Some (s + i, x).
Proof.
  revert s i. induction l as [| a l IH]; intros s [| i] H; simpl in *; try discriminate.
  - inversion H; subst. now rewrite Nat.add_0_r.
  - rewrite (IH (S s) i H). f_equal. f_equal. lia.
Qed.

Lemma nth_error_combine {A B} (l : list A) (l' : list B) i a b :
  nth_error l i = Some a -> nth_error l' i = Some b ->
  nth_error (combine l l') i = Some (a, b).
Proof.
  revert l' i. induction l as [| x l IH]; intros [| y l'] [| i] Ha Hb;
    simpl in *; try discriminate.
  - congruence.
  - auto.
Qed.

Lemma to_GeoDataFrame_nth cols rs i row g :
  nth_error rs i = Some (row, g) ->
  nth_error (rows (to_GeoDataFrame cols rs)) i
  = Some {| index := i; attrs := remove_col "geometry" row; geometry := g |}.
Proof.
  intros H. unfold to_GeoDataFrame. simpl.
  rewrite nth_error_map, (nth_error_enumerate rs 0 i H). reflexivity.
Qed.

Lemma to_GeoDataFrame_len cols rs : len (to_GeoDataFrame cols rs) = List.length rs.
Proof.
  unfold len, to_GeoDataFrame. simpl.
  rewrite length_map, length_combine, length_seq. apply Nat.min_id.
Qed.

Lemma fetch_fire_data_inv w t gdf :
  fetch_fire_data w = (t, inr gdf) ->
  exists fire_df values,
    read_csv w FIRE_DATA_URL = inr fire_df
    /\ map_result point_of_row (df_rows fire_df) = inr values
    /\ gdf = to_GeoDataFrame (df_columns fire_df) (combine (df_rows fire_df) values)
    /\ t = [Print "Fetching fire data..."; CallReadCsv FIRE_DATA_URL].
Proof.
  unfold fetch_fire_data, bind, call, lift, print, ret, apply_axis1.
  destruct (read_csv w FIRE_DATA_URL) as [e | fire_df] eqn:Hcsv; [discriminate |].
  destruct (df_rows fire_df) as [| row rs] eqn:Hrows.
  - unfold setitem_geometry.
    destruct (1 <? List.length (df_columns fire_df))%nat; [discriminate |].
    intros H. inversion H; subst. exists fire_df, []. rewrite Hrows. auto.
  - destruct (map_result point_of_row (row :: rs)) as [e | values] eqn:Hm;
      [discriminate |].
    unfold setitem_geometry. intros H. inversion H; subst.
    exists fire_df, values. rewrite Hrows. auto.
Qed.

Lemma point_of_row_numeric row lat lon g :
  lookup "latitude" row = Some (CNum lat) ->
  lookup "longitude" row = Some (CNum lon) ->
  point_of_row row = inr g -> g = Point lon lat.
Proof.
  unfold point_of_row, getitem. intros -> ->. simpl. congruence.
Qed.

(** C5. When the fire fetcher returns, the frame has one record per record of
    the feed, in the same order, and the geometry of a record whose latitude
    and longitude are numbers is the point with x = that longitude and
    y = that latitude. *)
Theorem fire_geometry_is_own_lon_lat (w : World) t gdf :
  fetch_fire_data w = (t, inr gdf) ->
  exists fire_df,
    read_csv w FIRE_DATA_URL = inr fire_df
    /\ len gdf = List.length (df_rows fire_df)
    /\ forall i row lat lon,
         nth_error (df_rows fire_df) i = Some row ->
         lookup "latitude" row = Some (CNum lat) ->
         lookup "longitude" row = Some (CNum lon) ->
         exists r, nth_error (rows gdf) i = Some r
                   /\ index r = i
                   /\ geometry r = Point lon lat
                   /\ pt_x (geometry r) = lon /\ pt_y (geometry r) = lat.
Proof.
  intros H.
  destruct (fetch_fire_data_inv _ H) as (fire_df & values & Hcsv & Hm & -> & _).
  destruct (map_result_nth _ _ Hm) as [Hlen Hnth].
  exists fire_df. split; [assumption |]. split.
  - rewrite to_GeoDataFrame_len, length_combine, Hlen. apply Nat.min_id.
  - intros i row lat lon Hrow Hlat Hlon.
    destruct (Hnth i row Hrow) as (g & Hg & Hp).
    rewrite (point_of_row_numeric _ Hlat Hlon Hp) in Hg.
    eexists. split.
    + apply to_GeoDataFrame_nth. apply nth_error_combine; eassumption.
    + simpl. auto.
Qed.

Lemma fire_geometry_is_own_lon_lat_witness :
  exists r, nth_error (rows Sample.fire_gdf) 1 = Some r
            /\ index r = 1
            /\ geometry r = Sample.pt 30 5
            /\ pt_x (geometry r) = inject_Z 30 /\ pt_y (geometry r) = inject_Z 5.
Proof.
  destruct (@fire_geometry_is_own_lon_lat Sample.world
              [Print "Fetching fire data..."; CallReadCsv FIRE_DATA_URL]
              Sample.fire_gdf eq_refl) as (fire_df & Hcsv & _ & Hall).
  simpl in Hcsv. injection Hcsv as <-.
  apply (Hall 1 (Sample.fire_record (inject_Z 30) (inject_Z 5))); reflexivity.
Defined.

(** ** Spatial filter *)

Lemma mem_middle c l1 l2 : mem c (l1 ++ c :: l2) = true.
Proof. apply mem_In. apply in_or_app. right. now left. Qed.

(** What the spatial filter computes, in one equation. *)
Lemma filter_fire_data_spec fire_gdf countries_gdf :
  filter_fire_data fire_gdf countries_gdf
  = ([Print "Filtering fire data..."],
     if has_index_names fire_gdf countries_gdf
     then inl (ValueError
            "'index_left' and 'index_right' cannot be names in the frames being joined")
     else if suffix_clash fire_gdf countries_gdf
     then inl (LibraryError "pandas.errors.MergeError"
            "Passing 'suffixes' which cause duplicate columns is not allowed.")
     else
       let lname := suffixed (columns countries_gdf) "_left" in
       let rname := suffixed (columns fire_gdf) "_right" in
       inr {| columns := filter (fun c => negb (mem c ["index_right"]))
                           (map lname (columns fire_gdf)
                            ++ "index_right" :: map rname (columns countries_gdf));
              rows := map (drop_row ["index_right"])
                          (sjoin_rows lname rname fire_gdf countries_gdf) |}).
Proof.
  unfold filter_fire_data, sjoin, bind, lift, print.
  destruct (has_index_names fire_gdf countries_gdf); [reflexivity |].
  destruct (suffix_clash fire_gdf countries_gdf); [reflexivity |].
  cbv zeta. unfold drop. cbn [find columns].
  rewrite mem_middle. reflexivity.
Qed.

Lemma filter_fire_data_inv fire_gdf countries_gdf t res :
  filter_fire_data fire_gdf countries_gdf = (t, inr res) ->
  has_index_names fire_gdf countries_gdf = false
  /\ rows res = map (drop_row ["index_right"])
                    (sjoin_rows (suffixed (columns countries_gdf) "_left")
                                (suffixed (columns fire_gdf) "_right")
                                fire_gdf countries_gdf)
  /\ columns res = filter (fun c => negb (mem c ["index_right"]))
                      (map (suffixed (columns countries_gdf) "_left") (columns fire_gdf)
                       ++ "index_right"
                          :: map (suffixed (columns fire_gdf) "_right")
                                 (columns countries_gdf)).
Proof.
  rewrite filter_fire_data_spec.
  destruct (has_index_names fire_gdf countries_gdf); [discriminate |].
  destruct (suffix_clash fire_gdf countries_gdf); intros H; inversion H; subst.
  auto.
Qed.

Lemma filter_fire_data_no_clash fire_gdf countries_gdf t res :
  filter_fire_data fire_gdf countries_gdf = (t, inr res) ->
  suffix_clash fire_gdf countries_gdf = false.
Proof.
  rewrite filter_fire_data_spec.
  destruct (has_index_names fire_gdf countries_gdf); [discriminate |].
  destruct (suffix_clash fire_gdf countries_gdf); [discriminate | reflexivity].
Qed.

(** Every record of the filtered frame is the join of a fire record with a
    retained boundary record whose polygon the fire point is within. *)
Lemma filtered_rows_origin fire_gdf countries_gdf t res r :
  filter_fire_data fire_gdf countries_gdf = (t, inr res) ->
  In r (rows res) ->
  exists f c,
    In f (rows fire_gdf) /\ In c (rows countries_gdf)
    /\ within (geometry f) (geometry c) = true
    /\ r = drop_row ["index_right"]
             (join_rows (suffixed (columns countries_gdf) "_left")
                        (suffixed (columns fire_gdf) "_right") f c).
Proof.
  intros H Hr. destruct (filter_fire_data_inv _ _ H) as (_ & Hrows & _).
  rewrite Hrows in Hr. apply in_map_iff in Hr. destruct Hr as (j & <- & Hj).
  unfold sjoin_rows in Hj. apply in_flat_map in Hj. destruct Hj as (f & Hf & Hj).
  apply in_map_iff in Hj. destruct Hj as (c & <- & Hc).
  unfold matches in Hc. apply filter_In in Hc. destruct Hc as [Hc Hw].
  exists f, c. auto.
Qed.

Lemma occurrences_one lname rname cs (f : Row PointGeom) (ms : list (Row Polygonal)) i :
  List.length (filter (fun r => Nat.eqb (index r) i)
                 (map (drop_row cs) (map (join_rows lname rname f) ms)))
  = if Nat.eqb (index f) i then List.length ms else 0.
Proof.
  induction ms as [| c ms IH]; simpl.
  - now destruct (Nat.eqb (index f) i).
  - destruct (Nat.eqb (index f) i); simpl; rewrite IH; reflexivity.
Qed.

Lemma occurrences_absent lname rname cs countries_gdf (fs : list (Row PointGeom)) i :
  ~ In i (map index fs) ->
  List.length (filter (fun r => Nat.eqb (index r) i)
                 (map (drop_row cs)
                    (flat_map (fun l => map (join_rows lname rname l)
                                            (matches l countries_gdf)) fs))) = 0.
Proof.
  induction fs as [| a fs IH]; intros Hn; simpl; [reflexivity |].
  rewrite map_app, filter_app, length_app, occurrences_one.
  simpl in Hn. destruct (Nat.eqb_spec (index a) i) as [E | E].
  - exfalso. apply Hn. now left.
  - rewrite IH; [reflexivity |]. intros Hi. apply Hn. now right.
Qed.

Lemma occurrences_matches lname rname cs countries_gdf (fs : list (Row PointGeom)) f :
  NoDup (map index fs) -> In f fs ->
  List.length (filter (fun r => Nat.eqb (index r) (index f))
                 (map (drop_row cs)
                    (flat_map (fun l => map (join_rows lname rname l)
                                            (matches l countries_gdf)) fs)))
  = List.length (matches f countries_gdf).
Proof.
  induction fs as [| a fs IH]; intros Hnd Hin; simpl; [contradiction |].
  rewrite map_app, filter_app, length_app, occurrences_one.
  simpl in Hnd. inversion Hnd as [| ? ? Hna Hnd']; subst.
  destruct Hin as [-> | Hin].
  - rewrite Nat.eqb_refl, occurrences_absent by assumption. lia.
  - destruct (Nat.eqb_spec (index a) (index f)) as [E | E].
    + exfalso. apply Hna. rewrite E. now apply in_map.
    + rewrite IH by assumption. reflexivity.
Qed.

Lemma matches_nonempty (f : Row PointGeom) countries_gdf :
  0 < List.length (matches f countries_gdf)
  <-> exists c, In c (rows countries_gdf) /\ within (geometry f) (geometry c) = true.
Proof.
  unfold matches. split.
  - destruct (filter _ _) as [| c ms] eqn:E; simpl; [lia |]. intros _.
    assert (Hc : In c (c :: ms)) by now left.
    rewrite <- E in Hc. apply filter_In in Hc. now exists c.
  - intros (c & Hc & Hw).
    assert (Hin : In c (filter (fun r => within (geometry f) (geometry r))
                               (rows countries_gdf)))
      by (apply filter_In; auto).
    destruct (filter _ _); [contradiction | simpl; lia].
Qed.

(** A point of the boundary of a polygon is not within it. *)
Lemma boundary_not_within p g : on_boundary p g = true -> within p g = false.
Proof. unfold within. now intros ->. Qed.

(** C1 (amended).  With distinct index labels on the fire records, a fire
    record is in the filtered frame if and only if its point is within (in
    the interior of) at least one retained polygon, and it appears there
    once for every retained polygon its point is within: exactly once when
    that polygon is unique, several times when retained polygons overlap. *)
Theorem fire_kept_once_per_containing_polygon fire_gdf countries_gdf t res :
  NoDup (map index (rows fire_gdf)) ->
  filter_fire_data fire_gdf countries_gdf = (t, inr res) ->
  forall f, In f (rows fire_gdf) ->
    (0 < occurrences (index f) res
     <-> exists c, In c (rows countries_gdf)
                   /\ within (geometry f) (geometry c) = true)
    /\ occurrences (index f) res = List.length (matches f countries_gdf)
    /\ (forall r, In r (rows res) -> index r = index f -> geometry r = geometry f).
Proof.
  intros Hnd H f Hf.
  destruct (filter_fire_data_inv _ _ H) as (_ & Hrows & _).
  assert (Hocc : occurrences (index f) res = List.length (matches f countries_gdf)).
  { unfold occurrences. rewrite Hrows. unfold sjoin_rows.
    now apply occurrences_matches. }
  split; [| split].
  - rewrite Hocc. apply matches_nonempty.
  - exact Hocc.
  - intros r Hr Hi.
    destruct (@filtered_rows_origin _ _ _ _ _ H Hr) as (f' & c & Hf' & _ & _ & ->).
    simpl in *.
    assert (f' = f); [| now subst].
    clear - Hnd Hf Hf' Hi. induction (rows fire_gdf) as [| a l IH]; [contradiction |].
    simpl in Hnd. inversion Hnd as [| ? ? Hna Hnd']; subst.
    destruct Hf as [-> | Hf], Hf' as [-> | Hf']; auto.
    + exfalso. apply Hna. rewrite <- Hi. now apply in_map.
    + exfalso. apply Hna. rewrite Hi. now apply in_map.
Qed.

Lemma fire_kept_once_per_containing_polygon_witness :
  occurrences 0 Sample.overlap_filtered
  = List.length (matches (Sample.fire_row 0 (inject_Z 9) (inject_Z 5))
                         Sample.overlap_countries).
Proof.
  refine (proj1 (proj2 (@fire_kept_once_per_containing_polygon
                          Sample.overlap_fires Sample.overlap_countries
                          [Print "Filtering fire data..."] Sample.overlap_filtered
                          _ _ (Sample.fire_row 0 (inject_Z 9) (inject_Z 5)) _))).
  - simpl. repeat constructor; simpl; intuition discriminate.
  - vm_compute. reflexivity.
  - simpl. auto.
Defined.

(** C1, counterexample.  Two retained polygons overlap and the point of
    fire record 0 lies within both: the record is in the filtered frame
    twice, not at most once. *)
Lemma overlapping_polygons_duplicate_a_fire_record :
  NoDup (map index (rows Sample.overlap_fires))
  /\ In (Sample.fire_row 0 (inject_Z 9) (inject_Z 5)) (rows Sample.overlap_fires)
  /\ filter_fire_data Sample.overlap_fires Sample.overlap_countries
     = ([Print "Filtering fire data..."], inr Sample.overlap_filtered)
  /\ occurrences 0 Sample.overlap_filtered = 2
  /\ ~ occurrences 0 Sample.overlap_filtered <= 1.
Proof.
  split; [simpl; repeat constructor; simpl; intuition discriminate |].
  split; [simpl; auto |].
  split; [vm_compute; reflexivity |].
  split; [reflexivity |].
  vm_compute. intros H. repeat (apply le_S_n in H). inversion H.
Qed.

(** ** The scenario of the hundred fire points *)

Lemma filter_Permutation {A} (p : A -> bool) (l l' : list A) :
  Permutation l l' -> Permutation (filter p l) (filter p l').
Proof.
  induction 1 as [| x l l' _ IH | x y l | l l' l'' _ IH1 _ IH2]; simpl.
  - constructor.
  - destruct (p x); [now constructor | assumption].
  - destruct (p x), (p y); try apply Permutation_refl. constructor.
  - eapply Permutation_trans; eassumption.
Qed.

Section ScenarioFacts.

Variables brazil peru bolivia : Row Polygonal.
Variable countries_gdf : GeoDataFrame Polygonal.
Hypothesis retained : Permutation (rows countries_gdf) [brazil; peru; bolivia].

Lemma matches_inside_brazil f :
  inside_brazil brazil peru bolivia f = true -> matches f countries_gdf = [brazil].
Proof.
  unfold inside_brazil, matches. intros H.
  apply andb_prop in H. destruct H as [H Hbo].
  apply andb_prop in H. destruct H as [Hbr Hpe].
  apply negb_true_iff in Hbo, Hpe.
  apply Permutation_length_1_inv. apply Permutation_sym.
  eapply Permutation_trans; [apply filter_Permutation, retained |].
  simpl. rewrite Hbr, Hpe, Hbo. apply Permutation_refl.
Qed.

Lemma matches_on_shared_border f :
  on_shared_border brazil peru bolivia f = true -> matches f countries_gdf = [].
Proof.
  unfold on_shared_border, matches. intros H.
  apply andb_prop in H. destruct H as [H Hbr].
  apply andb_prop in H. destruct H as [Hpe Hbo].
  apply negb_true_iff in Hbr.
  apply boundary_not_within in Hpe, Hbo.
  apply Permutation_nil. apply Permutation_sym.
  eapply Permutation_trans; [apply filter_Permutation, retained |].
  simpl. rewrite Hbr, Hpe, Hbo. apply Permutation_refl.
Qed.

Lemma matches_outside_all f :
  outside_all brazil peru bolivia f = true -> matches f countries_gdf = [].
Proof.
  unfold outside_all, intersects, matches. intros H.
  apply andb_prop in H. destruct H as [H Hbo].
  apply andb_prop in H. destruct H as [Hbr Hpe].
  apply negb_true_iff in Hbr, Hpe, Hbo.
  apply orb_false_elim in Hbr, Hpe, Hbo.
  destruct Hbr as [_ Hbr], Hpe as [_ Hpe], Hbo as [_ Hbo].
  apply Permutation_nil. apply Permutation_sym.
  eapply Permutation_trans; [apply filter_Permutation, retained |].
  simpl. rewrite Hbr, Hpe, Hbo. apply Permutation_refl.
Qed.

Lemma scenario_rows lname rname (fires : list (Row PointGeom)) :
  Forall (fun f => inside_brazil brazil peru bolivia f
                   || on_shared_border brazil peru bolivia f
                   || outside_all brazil peru bolivia f = true) fires ->
  map (drop_row ["index_right"])
      (flat_map (fun l => map (join_rows lname rname l) (matches l countries_gdf)) fires)
  = map (fun f => drop_row ["index_right"] (join_rows lname rname f brazil))
        (filter (inside_brazil brazil peru bolivia) fires).
Proof.
  induction 1 as [| f fires Hf _ IH]; simpl; [reflexivity |].
  rewrite map_app, IH.
  destruct (inside_brazil brazil peru bolivia f) eqn:Hin.
  - rewrite (matches_inside_brazil _ Hin). reflexivity.
  - simpl in Hf. apply orb_prop in Hf. destruct Hf as [Hb | Ho].
    + rewrite (matches_on_shared_border _ Hb). reflexivity.
    + rewrite (matches_outside_all _ Ho). reflexivity.
Qed.

End ScenarioFacts.

(** C3 (amended).  Of a hundred fire points of which 40 are strictly inside
    Brazil (and inside no other retained polygon), 10 are on the border that
    Peru and Bolivia share (and not inside Brazil) and 50 are outside the
    three countries, the filtered frame holds exactly the 40 points inside
    Brazil, each once and in their order, joined to Brazil; no border point
    and no outside point is kept. *)
Theorem scenario_keeps_the_forty_inside_points
  (brazil peru bolivia : Row Polygonal) (countries_gdf : GeoDataFrame Polygonal)
  (fire_gdf : GeoDataFrame PointGeom) t res :
  Permutation (rows countries_gdf) [brazil; peru; bolivia] ->
  Forall (fun f => inside_brazil brazil peru bolivia f
                   || on_shared_border brazil peru bolivia f
                   || outside_all brazil peru bolivia f = true) (rows fire_gdf) ->
  List.length (filter (inside_brazil brazil peru bolivia) (rows fire_gdf)) = 40 ->
  List.length (filter (on_shared_border brazil peru bolivia) (rows fire_gdf)) = 10 ->
  List.length (filter (outside_all brazil peru bolivia) (rows fire_gdf)) = 50 ->
  filter_fire_data fire_gdf countries_gdf = (t, inr res) ->
  len res = 40
  /\ map index (rows res)
     = map index (filter (inside_brazil brazil peru bolivia) (rows fire_gdf))
  /\ map geometry (rows res)
     = map geometry (filter (inside_brazil brazil peru bolivia) (rows fire_gdf))
  /\ forall r, In r (rows res) ->
       exists f, In f (rows fire_gdf)
                 /\ inside_brazil brazil peru bolivia f = true
                 /\ index r = index f /\ geometry r = geometry f.
Proof.
  intros Hperm Hclass H40 _ _ H.
  destruct (filter_fire_data_inv _ _ H) as (_ & Hrows & _).
  unfold sjoin_rows in Hrows.
  rewrite (@scenario_rows brazil peru bolivia countries_gdf Hperm _ _ _ Hclass) in Hrows.
  repeat split.
  - unfold len. rewrite Hrows, length_map. exact H40.
  - rewrite Hrows, map_map. reflexivity.
  - rewrite Hrows, map_map. reflexivity.
  - intros r Hr. rewrite Hrows in Hr. apply in_map_iff in Hr.
    destruct Hr as (f & <- & Hf). apply filter_In in Hf. destruct Hf as [Hf Hin].
    exists f. auto.
Qed.

Lemma scenario_keeps_the_forty_inside_points_witness :
  len Sample.hundred_filtered = 40
  /\ map index (rows Sample.hundred_filtered) = seq 0 40.
Proof.
  destruct (@scenario_keeps_the_forty_inside_points
              Sample.brazil Sample.peru Sample.bolivia Sample.countries_gdf
              Sample.hundred_fires [Print "Filtering fire data..."]
              Sample.hundred_filtered) as (Hlen & Hidx & _).
  - apply Permutation_refl.
  - apply Forall_forall, forallb_forall. vm_compute. reflexivity.
  - vm_compute. reflexivity.
  - vm_compute. reflexivity.
  - vm_compute. reflexivity.
  - vm_compute. reflexivity.
  - split; [exact Hlen |]. rewrite Hidx. vm_compute. reflexivity.
Defined.

(** C3, counterexample.  Forty points strictly inside Brazil, ten on the
    border of Peru and Bolivia, fifty outside: the filtered frame has 40
    records, not 50, and none of the ten border points (index labels 40 to
    49) is among them. *)
Lemma border_points_are_not_kept :
  List.length Sample.inside_points = 40
  /\ List.length Sample.border_points = 10
  /\ List.length Sample.outside_points = 50
  /\ forallb (fun f => within (geometry f) (geometry Sample.brazil)) Sample.inside_points
     = true
  /\ forallb (fun f => on_boundary (geometry f) (geometry Sample.peru)
                       && on_boundary (geometry f) (geometry Sample.bolivia))
             Sample.border_points = true
  /\ forallb (outside_all Sample.brazil Sample.peru Sample.bolivia) Sample.outside_points
     = true
  /\ filter_fire_data Sample.hundred_fires Sample.countries_gdf
     = ([Print "Filtering fire data..."], inr Sample.hundred_filtered)
  /\ len Sample.hundred_filtered = 40
  /\ len Sample.hundred_filtered <> 50
  /\ forallb (fun f => Nat.eqb (occurrences (index f) Sample.hundred_filtered) 0)
             Sample.border_points = true.
Proof.
  repeat split; try (vm_compute; reflexivity).
  vm_compute. discriminate.
Qed.

(** ** Columns of the filtered frame *)

Lemma keep_iff k : negb (mem k ["index_right"]) = true <-> k <> "index_right".
Proof.
  unfold mem. simpl. rewrite orb_false_r, negb_true_iff. apply String.eqb_neq.
Qed.

Lemma no_index_names {G G'} (l : GeoDataFrame G) (r : GeoDataFrame G') :
  has_index_names l r = false ->
  forall k, In k (columns l ++ columns r) -> k <> "index_right".
Proof.
  unfold has_index_names. intros H k Hk ->.
  assert (E : existsb (fun c => mem c ["index_left"; "index_right"])
                      (columns l ++ columns r) = true)
    by (apply existsb_exists; exists "index_right"; auto).
  congruence.
Qed.

Lemma left_suffix_is_not_index k : (k ++ "_left")%string <> "index_right".
Proof.
  intros H.
  repeat (destruct k as [| ? k]; simpl in H; [discriminate H | injection H as _ H]).
  destruct k; discriminate H.
Qed.

Lemma right_suffix_is_index k : (k ++ "_right")%string = "index_right" -> k = "index".
Proof.
  intros H.
  do 5 (destruct k as [| c k]; simpl in H; [discriminate H | injection H as Hc H; subst c]).
  destruct k as [| c k]; [reflexivity |]. exfalso.
  simpl in H. injection H as _ H.
  repeat (destruct k as [| ? k]; simpl in H; [discriminate H | injection H as _ H]).
  destruct k; discriminate H.
Qed.

Lemma filter_all {A} (p : A -> bool) (l : list A) :
  (forall x, In x l -> p x = true) -> filter p l = l.
Proof.
  induction l as [| a l IH]; intros H; simpl; [reflexivity |].
  rewrite (H a) by now left. f_equal. apply IH. intros x Hx. apply H. now right.
Qed.

Lemma mem_filter_self c l : mem c (filter (fun x => negb (mem x [c])) l) = false.
Proof.
  destruct (mem c (filter _ l)) eqn:E; [| reflexivity].
  apply mem_In, filter_In in E. destruct E as [_ E].
  unfold mem in E. simpl in E. now rewrite String.eqb_refl in E.
Qed.

Lemma lookup_filter_self c (r : Record_) :
  lookup c (filter (fun kv => negb (mem (fst kv) [c])) r) = None.
Proof.
  induction r as [| [k v] r IH]; simpl; [reflexivity |].
  unfold mem in *. simpl in *. rewrite orb_false_r.
  destruct (String.eqb k c) eqn:E; simpl; [exact IH |].
  rewrite String.eqb_sym, E. exact IH.
Qed.

Lemma rename_keys_id (f : string -> string) (r : Record_) :
  (forall k, In k (map fst r) -> f k = k) -> rename_keys f r = r.
Proof.
  induction r as [| [k v] r IH]; intros H; simpl; [reflexivity |].
  rewrite (H k) by now left. f_equal. apply IH. intros k' Hk'. apply H. now right.
Qed.

(** The fire columns survive the removal of "index_right". *)
Lemma left_columns_kept (fire_gdf : GeoDataFrame PointGeom)
  (countries_gdf : GeoDataFrame Polygonal) (f : Row PointGeom) :
  wf_frame fire_gdf -> has_index_names fire_gdf countries_gdf = false ->
  In f (rows fire_gdf) ->
  filter (fun kv => negb (mem (fst kv) ["index_right"]))
         (rename_keys (suffixed (columns countries_gdf) "_left") (attrs f))
  = rename_keys (suffixed (columns countries_gdf) "_left") (attrs f).
Proof.
  intros Hwf Hidx Hf. apply filter_all. intros [k' v] Hk.
  unfold rename_keys in Hk. apply in_map_iff in Hk. destruct Hk as ([k v0] & E & Hk).
  simpl in E. inversion E; subst. simpl. apply keep_iff.
  unfold suffixed. destruct (mem k (columns countries_gdf)).
  - apply left_suffix_is_not_index.
  - apply (no_index_names _ _ Hidx). apply in_or_app. left.
    unfold wf_frame in Hwf. rewrite Forall_forall in Hwf. rewrite <- (Hwf f Hf).
    apply (in_map fst) in Hk. exact Hk.
Qed.

Lemma suffix_duplicates_seen f seen_after seen_before cols x :
  suffix_duplicates f seen_after seen_before cols = false ->
  In x seen_after ->
  forall c, In c cols -> f c = x -> In c seen_before.
Proof.
  revert seen_after seen_before.
  induction cols as [| c0 cols IH]; intros sa sb H Hx c Hc Hf; [contradiction |].
  simpl in H. apply orb_false_elim in H. destruct H as [Hhead Hrest].
  assert (H0 : f c0 = x -> In c0 sb).
  { intros E. rewrite E in Hhead.
    assert (Hm : mem x sa = true) by now apply mem_In.
    rewrite Hm in Hhead. simpl in Hhead. apply negb_false_iff in Hhead.
    now apply mem_In. }
  destruct Hc as [-> | Hc]; [now apply H0 |].
  destruct (IH (f c0 :: sa) (c0 :: sb) Hrest (or_intror Hx) c Hc Hf) as [<- | Hin].
  - now apply H0.
  - exact Hin.
Qed.

(** The boundary columns survive it too: a boundary column that the suffix
    would turn into "index_right" makes the join raise. *)
Lemma right_columns_kept (fire_gdf : GeoDataFrame PointGeom)
  (countries_gdf : GeoDataFrame Polygonal) (c : Row Polygonal) :
  wf_frame countries_gdf -> has_index_names fire_gdf countries_gdf = false ->
  suffix_clash fire_gdf countries_gdf = false ->
  In c (rows countries_gdf) ->
  filter (fun kv => negb (mem (fst kv) ["index_right"]))
         (rename_keys (suffixed (columns fire_gdf) "_right") (attrs c))
  = rename_keys (suffixed (columns fire_gdf) "_right") (attrs c).
Proof.
  intros Hwf Hidx Hno Hc. apply filter_all. intros [k' v] Hk.
  unfold rename_keys in Hk. apply in_map_iff in Hk. destruct Hk as ([k v0] & E & Hk).
  simpl in E. inversion E; subst. simpl. apply keep_iff.
  assert (Hcol : In k (columns countries_gdf)).
  { unfold wf_frame in Hwf. rewrite Forall_forall in Hwf. rewrite <- (Hwf c Hc).
    apply (in_map fst) in Hk. exact Hk. }
  intros E'.
  unfold suffix_clash in Hno. apply orb_false_elim in Hno. destruct Hno as [_ Hno].
  assert (Hin : In k ["index_right"]).
  { apply (suffix_duplicates_seen _ _ _ _ Hno (or_introl eq_refl) k Hcol E'). }
  destruct Hin as [<- | []].
  apply (@no_index_names _ _ _ _ Hidx "index_right"); [| reflexivity].
  apply in_or_app. now right.
Qed.

(** C8 (amended).  The filtered frame has no column "index_right", and each
    of its records keeps the index label, the geometry and, first and in
    order, the values of all the columns of the fire record it comes from.
    The column names are kept too, except that a fire column whose name is
    also the name of a boundary column is renamed with the suffix "_left". *)
Theorem filtered_drops_join_index_and_keeps_fire_columns
  fire_gdf countries_gdf t res :
  wf_frame fire_gdf ->
  filter_fire_data fire_gdf countries_gdf = (t, inr res) ->
  mem "index_right" (columns res) = false
  /\ forall r, In r (rows res) ->
       lookup "index_right" (attrs r) = None
       /\ exists f rest,
            In f (rows fire_gdf)
            /\ index r = index f /\ geometry r = geometry f
            /\ attrs r
               = rename_keys (suffixed (columns countries_gdf) "_left") (attrs f) ++ rest
            /\ ((forall k, In k (columns fire_gdf) -> mem k (columns countries_gdf) = false)
                -> attrs r = attrs f ++ rest).
Proof.
  intros Hwf H. destruct (filter_fire_data_inv _ _ H) as (Hidx & Hrows & Hcols).
  split; [rewrite Hcols; apply mem_filter_self |].
  intros r Hr.
  destruct (@filtered_rows_origin _ _ _ _ _ H Hr) as (f & c & Hf & Hc & Hw & ->).
  split; [apply lookup_filter_self |].
  exists f. eexists. repeat split; [assumption | |].
  - unfold drop_row, join_rows. cbn [attrs].
    rewrite filter_app, (@left_columns_kept _ _ _ Hwf Hidx Hf). reflexivity.
  - intros Hfresh. unfold drop_row, join_rows. cbn [attrs].
    rewrite filter_app, (@left_columns_kept _ _ _ Hwf Hidx Hf).
    rewrite rename_keys_id; [reflexivity |].
    intros k Hk. unfold suffixed. rewrite Hfresh; [reflexivity |].
    unfold wf_frame in Hwf. rewrite Forall_forall in Hwf. now rewrite <- (Hwf f Hf).
Qed.

Lemma filtered_drops_join_index_and_keeps_fire_columns_witness :
  mem "index_right" (columns Sample.sample_filtered) = false.
Proof.
  refine (proj1 (@filtered_drops_join_index_and_keeps_fire_columns
                   Sample.fire_gdf Sample.countries_gdf
                   [Print "Filtering fire data..."] Sample.sample_filtered _ _)).
  - unfold wf_frame. simpl. repeat constructor.
  - vm_compute. reflexivity.
Defined.

(** C8, counterexample.  The fire feed has a column COUNTRY, as the boundary
    frame has: the retained record no longer has its column COUNTRY, the
    value is under COUNTRY_left. *)
Lemma fire_column_renamed_on_name_clash :
  wf_frame Sample.tagged_fires
  /\ lookup "COUNTRY" Sample.tagged_record = Some (CStr "BR")
  /\ filter_fire_data Sample.tagged_fires Sample.countries_gdf
     = ([Print "Filtering fire data..."], inr Sample.tagged_filtered)
  /\ (exists r, rows Sample.tagged_filtered = [r]
                /\ index r = 0
                /\ lookup "COUNTRY" (attrs r) = None
                /\ lookup "COUNTRY_left" (attrs r) = Some (CStr "BR"))
  /\ mem "COUNTRY" (columns Sample.tagged_filtered) = false.
Proof.
  split; [unfold wf_frame; simpl; repeat constructor |].
  split; [reflexivity |].
  split; [vm_compute; reflexivity |].
  split; [| reflexivity].
  eexists. split; [reflexivity |]. repeat split; reflexivity.
Qed.

(** C10 (amended).  Each record of the filtered frame carries, after the
    columns of its fire record, all the attribute columns of the boundary
    record it was joined to, with their values and in order: the removal of
    "index_right" takes away the right index and nothing else.  A boundary
    column keeps its name unless the fire frame has a column of that name,
    in which case it gets the suffix "_right". *)
Theorem filtered_carries_boundary_attributes fire_gdf countries_gdf t res :
  wf_frame fire_gdf -> wf_frame countries_gdf ->
  filter_fire_data fire_gdf countries_gdf = (t, inr res) ->
  forall r, In r (rows res) ->
    exists f c,
      In f (rows fire_gdf) /\ In c (rows countries_gdf)
      /\ within (geometry f) (geometry c) = true
      /\ index r = index f
      /\ attrs r
         = rename_keys (suffixed (columns countries_gdf) "_left") (attrs f)
           ++ rename_keys (suffixed (columns fire_gdf) "_right") (attrs c)
      /\ (forall k v, In (k, v) (attrs c) ->
            In (suffixed (columns fire_gdf) "_right" k, v) (attrs r))
      /\ (forall k v, In (k, v) (attrs c) -> mem k (columns fire_gdf) = false ->
            In (k, v) (attrs r)).
Proof.
  intros Hwf Hwf' H r Hr.
  destruct (filter_fire_data_inv _ _ H) as (Hidx & _ & _).
  pose proof (filter_fire_data_no_clash _ _ H) as Hno.
  destruct (@filtered_rows_origin _ _ _ _ _ H Hr) as (f & c & Hf & Hc & Hw & ->).
  assert (Hattrs :
    attrs (drop_row ["index_right"]
             (join_rows (suffixed (columns countries_gdf) "_left")
                        (suffixed (columns fire_gdf) "_right") f c))
    = rename_keys (suffixed (columns countries_gdf) "_left") (attrs f)
      ++ rename_keys (suffixed (columns fire_gdf) "_right") (attrs c)).
  { unfold drop_row, join_rows. cbn [attrs].
    rewrite filter_app, (@left_columns_kept _ _ _ Hwf Hidx Hf).
    cbn [filter fst]. replace (negb (mem "index_right" ["index_right"])) with false
      by reflexivity.
    rewrite (@right_columns_kept _ _ _ Hwf' Hidx Hno Hc). reflexivity. }
  assert (Hin : forall k v, In (k, v) (attrs c) ->
    In (suffixed (columns fire_gdf) "_right" k, v)
       (attrs (drop_row ["index_right"]
                 (join_rows (suffixed (columns countries_gdf) "_left")
                            (suffixed (columns fire_gdf) "_right") f c)))).
  { intros k v Hk. rewrite Hattrs. apply in_or_app. right.
    unfold rename_keys. apply in_map_iff. exists (k, v). auto. }
  exists f, c. repeat split; try assumption.
  intros k v Hk Hfresh. specialize (Hin k v Hk).
  unfold suffixed in Hin at 1. now rewrite Hfresh in Hin.
Qed.

Lemma filtered_carries_boundary_attributes_witness :
  exists f c,
    In f (rows Sample.fire_gdf) /\ In c (rows Sample.countries_gdf)
    /\ within (geometry f) (geometry c) = true
    /\ index Sample.sample_record = index f
    /\ attrs Sample.sample_record
       = rename_keys (suffixed (columns Sample.countries_gdf) "_left") (attrs f)
         ++ rename_keys (suffixed (columns Sample.fire_gdf) "_right") (attrs c).
Proof.
  destruct (@filtered_carries_boundary_attributes
              Sample.fire_gdf Sample.countries_gdf
              [Print "Filtering fire data..."] Sample.sample_filtered)
    with (r := Sample.sample_record)
    as (f & c & Hf & Hc & Hw & Hi & Ha & _).
  - unfold wf_frame. simpl. repeat constructor.
  - unfold wf_frame. simpl. repeat constructor.
  - vm_compute. reflexivity.
  - vm_compute. left. reflexivity.
  - exists f, c. auto.
Defined.

(** C10, counterexample.  The fire feed has a column COUNTRY of its own.
    The record kept is joined to Brazil, whose COUNTRY is "Brazil": it has
    no column COUNTRY, the name of the country is under COUNTRY_right. *)
Lemma boundary_column_renamed_on_name_clash :
  wf_frame Sample.tagged_fires /\ wf_frame Sample.countries_gdf
  /\ lookup "COUNTRY" (attrs Sample.brazil) = Some (CStr "Brazil")
  /\ filter_fire_data Sample.tagged_fires Sample.countries_gdf
     = ([Print "Filtering fire data..."], inr Sample.tagged_filtered)
  /\ (exists r, rows Sample.tagged_filtered = [r]
                /\ within (geometry r) (geometry Sample.brazil) = true
                /\ lookup "COUNTRY" (attrs r) = None
                /\ lookup "COUNTRY_right" (attrs r) = Some (CStr "Brazil"))
  /\ mem "COUNTRY" (columns Sample.tagged_filtered) = false.
Proof.
  split; [unfold wf_frame; simpl; repeat constructor |].
  split; [unfold wf_frame; simpl; repeat constructor |].
  split; [reflexivity |].
  split; [vm_compute; reflexivity |].
  split; [| reflexivity].
  eexists. split; [reflexivity |]. repeat split; vm_compute; reflexivity.
Qed.

(** Both frames have a column "index": the suffixes would give a second
    "index_left" and a second "index_right", and the join raises. *)
Example join_refuses_two_index_columns :
  snd (filter_fire_data
         {| columns := ["index"; "latitude"];
            rows := [{| index := 0;
                        attrs := [("index", CNum (inject_Z 7));
                                  ("latitude", CNum (inject_Z 5))];
                        geometry := Sample.pt 5 5 |}] |}
         {| columns := ["index"; "COUNTRY"];
            rows := [{| index := 30;
                        attrs := [("index", CNum (inject_Z 1)); ("COUNTRY", CStr "Brazil")];
                        geometry := Sample.rectangle 0 0 10 10 |}] |})
  = inl (LibraryError "pandas.errors.MergeError"
           "Passing 'suffixes' which cause duplicate columns is not allowed.").
Proof. vm_compute. reflexivity. Qed.

(** ** Traces of the stages *)

Lemma fetch_fire_data_trace w :
  fst (fetch_fire_data w) = [Print "Fetching fire data..."; CallReadCsv FIRE_DATA_URL].
Proof.
  unfold fetch_fire_data, bind, call, lift, print, ret.
  destruct (read_csv w FIRE_DATA_URL) as [e | fire_df]; [reflexivity |].
  destruct (apply_axis1 point_of_row fire_df) as [e | applied]; [reflexivity |].
  destruct (setitem_geometry fire_df applied); reflexivity.
Qed.

Lemma fetch_country_boundaries_trace w :
  fst (fetch_country_boundaries w)
  = [Print "Fetching country boundaries..."; CallGet COUNTRIES_URL]
    ++ match requests_get w COUNTRIES_URL with
       | inl _ => []
       | inr response =>
           match raise_for_status response with
           | inl _ => []
           | inr _ => [CallReadFile (text response)]
           end
       end.
Proof.
  unfold fetch_country_boundaries, bind, call, lift, print, ret.
  destruct (requests_get w COUNTRIES_URL) as [e | response]; [reflexivity |].
  destruct (raise_for_status response) as [e | []]; [reflexivity |].
  destruct (read_file w (text response)) as [e | world_gdf]; [reflexivity |].
  destruct (select_isin "COUNTRY" COUNTRIES_TO_KEEP world_gdf); reflexivity.
Qed.

Lemma filter_fire_data_trace fire_gdf countries_gdf :
  fst (filter_fire_data fire_gdf countries_gdf) = [Print "Filtering fire data..."].
Proof. now rewrite filter_fire_data_spec. Qed.

(** What the publisher does when it returns. *)
Lemma publish_to_arcgis_inv w filtered_gdf t :
  publish_to_arcgis w filtered_gdf = (t, inr tt) ->
  GIS w PORTAL_URL USERNAME PASSWORD = inr tt
  /\ from_geodataframe w filtered_gdf = inr tt
  /\ exists items,
       content_search w ITEM_TITLE "Feature Layer" = inr items
       /\ match items with
          | item :: _ =>
              fromitem w item = inr tt
              /\ overwrite w item filtered_gdf = inr tt
              /\ t = [Print "Publishing to ArcGIS Online...";
                      CallGIS PORTAL_URL USERNAME PASSWORD;
                      CallFromGeoDataFrame filtered_gdf;
                      CallSearch ITEM_TITLE "Feature Layer";
                      Print "Updating existing layer...";
                      CallFromItem item;
                      CallOverwrite item filtered_gdf;
                      Print "Publishing complete!"]
          | [] =>
              to_featurelayer w ITEM_TITLE filtered_gdf = inr tt
              /\ t = [Print "Publishing to ArcGIS Online...";
                      CallGIS PORTAL_URL USERNAME PASSWORD;
                      CallFromGeoDataFrame filtered_gdf;
                      CallSearch ITEM_TITLE "Feature Layer";
                      Print "Creating a new feature layer...";
                      CallToFeatureLayer ITEM_TITLE filtered_gdf;
                      Print "Publishing complete!"]
          end.
Proof.
  unfold publish_to_arcgis, bind, call, print.
  destruct (GIS w PORTAL_URL USERNAME PASSWORD) as [e | []] eqn:Hgis; [discriminate |].
  destruct (from_geodataframe w filtered_gdf) as [e | []] eqn:Hsdf; [discriminate |].
  destruct (content_search w ITEM_TITLE "Feature Layer") as [e | items] eqn:Hsearch;
    [discriminate |].
  destruct items as [| item items].
  - destruct (to_featurelayer w ITEM_TITLE filtered_gdf) as [e | []] eqn:Hcreate;
      [discriminate |].
    intros H. inversion H; subst. repeat split. exists []. auto.
  - destruct (fromitem w item) as [e | []] eqn:Hitem; [discriminate |].
    destruct (overwrite w item filtered_gdf) as [e | []] eqn:Hover; [discriminate |].
    intros H. inversion H; subst. repeat split. exists (item :: items). auto.
Qed.


(** The publisher never issues more than one mutation, and none unless the
    search has returned. *)
Lemma publish_to_arcgis_mutations w filtered_gdf :
  List.length (mutations (fst (publish_to_arcgis w filtered_gdf))) <= 1.
Proof.
  unfold publish_to_arcgis, bind, call, print.
  destruct (GIS w PORTAL_URL USERNAME PASSWORD) as [e | []]; [simpl; lia |].
  destruct (from_geodataframe w filtered_gdf) as [e | []]; [simpl; lia |].
  destruct (content_search w ITEM_TITLE "Feature Layer") as [e | [| item items]];
    [simpl; lia | |].
  - destruct (to_featurelayer w ITEM_TITLE filtered_gdf) as [e | []]; simpl; lia.
  - destruct (fromitem w item) as [e | []]; [simpl; lia |].
    destruct (overwrite w item filtered_gdf) as [e | []]; simpl; lia.
Qed.

(** ** The [__main__] block *)

(** The pipeline stops at the first stage that raises, with the error of
    that stage. *)
Lemma pipeline_unfold w :
  pipeline w
  = match fetch_fire_data w with
    | (t1, inl e) => (t1, inl e)
    | (t1, inr fire_gdf) =>
        match fetch_country_boundaries w with
        | (t2, inl e) => (t1 ++ t2, inl e)
        | (t2, inr countries_gdf) =>
            match filter_fire_data fire_gdf countries_gdf with
            | (t3, inl e) => (t1 ++ t2 ++ t3, inl e)
            | (t3, inr filtered_gdf) =>
                let counted :=
                  Print ("Filtered " ++ str_of_nat (len filtered_gdf) ++ " fire records.")
                in
                match publish_to_arcgis w filtered_gdf with
                | (t4, inl e) => (t1 ++ t2 ++ t3 ++ counted :: t4, inl e)
                | (t4, inr _) =>
                    (t1 ++ t2 ++ t3 ++ counted :: t4
                     ++ [Print "Process completed successfully!"], inr tt)
                end
            end
        end
    end.
Proof.
  unfold pipeline, bind, print.
  destruct (fetch_fire_data w) as [t1 [e | fire_gdf]]; [reflexivity |].
  destruct (fetch_country_boundaries w) as [t2 [e | countries_gdf]]; [reflexivity |].
  destruct (filter_fire_data fire_gdf countries_gdf) as [t3 [e | filtered_gdf]];
    [reflexivity |].
  destruct (publish_to_arcgis w filtered_gdf) as [t4 [e | []]]; reflexivity.
Qed.

Lemma main_unfold w :
  main w
  = match pipeline w with
    | (t, inl e) => (t ++ [Print ("Error: " ++ exn_str e)], inr tt)
    | (t, inr a) => (t, inr a)
    end.
Proof. unfold main, try_except, print. now destruct (pipeline w) as [t [e | a]]. Qed.

Lemma main_returns w : snd (main w) = inr tt.
Proof. rewrite main_unfold. now destruct (pipeline w) as [t [e | []]]. Qed.

Ltac distinct_calls := simpl; repeat constructor; simpl; intuition discriminate.

(** No call to the outside is made twice in a run. *)
Lemma main_calls_once w : NoDup (calls (fst (main w))).
Proof.
  rewrite main_unfold, pipeline_unfold.
  pose proof (fetch_fire_data_trace w) as T1.
  pose proof (fetch_country_boundaries_trace w) as T2.
  destruct (fetch_fire_data w) as [t1 [e | fire_gdf]]; simpl in T1; subst t1;
    [distinct_calls |].
  destruct (fetch_country_boundaries w) as [t2 [e | countries_gdf]]; simpl in T2; subst t2.
  { destruct (requests_get w COUNTRIES_URL) as [e' | response]; [distinct_calls |].
    destruct (raise_for_status response); distinct_calls. }
  pose proof (filter_fire_data_trace fire_gdf countries_gdf) as T3.
  destruct (filter_fire_data fire_gdf countries_gdf) as [t3 [e | filtered_gdf]];
    simpl in T3; subst t3.
  { destruct (requests_get w COUNTRIES_URL) as [e' | response]; [distinct_calls |].
    destruct (raise_for_status response); distinct_calls. }
  cbv zeta. unfold publish_to_arcgis, bind, call, print.
  destruct (requests_get w COUNTRIES_URL) as [e' | response];
    [| destruct (raise_for_status response) as [e'' | []]];
    (destruct (GIS w PORTAL_URL USERNAME PASSWORD) as [e | []]; [distinct_calls |];
     destruct (from_geodataframe w filtered_gdf) as [e | []]; [distinct_calls |];
     destruct (content_search w ITEM_TITLE "Feature Layer") as [e | [| item items]];
       [distinct_calls | |];
     [ destruct (to_featurelayer w ITEM_TITLE filtered_gdf) as [e | []]; distinct_calls
     | destruct (fromitem w item) as [e | []]; [distinct_calls |];
       destruct (overwrite w item filtered_gdf) as [e | []]; distinct_calls ]).
Qed.

(** An error raised by a stage is the error of a library call of that
    stage. *)
Lemma fetch_fire_data_raises w t e :
  fetch_fire_data w = (t, inl e) -> library_error w e.
Proof.
  unfold fetch_fire_data, bind, call, lift, print, ret.
  destruct (read_csv w FIRE_DATA_URL) as [e1 | fire_df] eqn:Hcsv.
  { intros H. inversion H; subst. now apply err_read_csv. }
  destruct (apply_axis1 point_of_row fire_df) as [e2 | applied] eqn:Happly.
  { intros H. inversion H; subst. eapply err_apply; eassumption. }
  destruct (setitem_geometry fire_df applied) as [e3 | rs] eqn:Hset; [| discriminate].
  intros H. inversion H; subst. eapply err_setitem; eassumption.
Qed.

Lemma fetch_country_boundaries_raises w t1 fire_gdf t e :
  fetch_fire_data w = (t1, inr fire_gdf) ->
  fetch_country_boundaries w = (t, inl e) -> library_error w e.
Proof.
  intros H1. unfold fetch_country_boundaries, bind, call, lift, print, ret.
  destruct (requests_get w COUNTRIES_URL) as [e1 | response] eqn:Hget.
  { intros H. inversion H; subst. eapply err_get; eassumption. }
  destruct (raise_for_status response) as [e2 | []] eqn:Hstatus.
  { intros H. inversion H; subst. eapply err_status; eassumption. }
  destruct (read_file w (text response)) as [e3 | world_gdf] eqn:Hread.
  { intros H. inversion H; subst. eapply err_read_file; eassumption. }
  destruct (select_isin "COUNTRY" COUNTRIES_TO_KEEP world_gdf) as [e4 | gdf] eqn:Hsel;
    [| discriminate].
  intros H. inversion H; subst. eapply err_column; eassumption.
Qed.

Lemma filter_fire_data_raises w t1 fire_gdf t2 countries_gdf t e :
  fetch_fire_data w = (t1, inr fire_gdf) ->
  fetch_country_boundaries w = (t2, inr countries_gdf) ->
  filter_fire_data fire_gdf countries_gdf = (t, inl e) -> library_error w e.
Proof.
  intros H1 H2. unfold filter_fire_data, bind, lift, print.
  destruct (sjoin fire_gdf countries_gdf) as [e1 | joined] eqn:Hjoin.
  { intros H. inversion H; subst. eapply err_sjoin; eassumption. }
  destruct (drop ["index_right"] joined) as [e2 | res] eqn:Hdrop; [| discriminate].
  intros H. inversion H; subst. eapply err_drop; eassumption.
Qed.

Lemma publish_to_arcgis_raises w t1 fire_gdf t2 countries_gdf t3 filtered_gdf t e :
  fetch_fire_data w = (t1, inr fire_gdf) ->
  fetch_country_boundaries w = (t2, inr countries_gdf) ->
  filter_fire_data fire_gdf countries_gdf = (t3, inr filtered_gdf) ->
  publish_to_arcgis w filtered_gdf = (t, inl e) -> library_error w e.
Proof.
  intros H1 H2 H3. unfold publish_to_arcgis, bind, call, print.
  destruct (GIS w PORTAL_URL USERNAME PASSWORD) as [e1 | []] eqn:Hgis.
  { intros H. inversion H; subst. eapply err_login; eassumption. }
  destruct (from_geodataframe w filtered_gdf) as [e2 | []] eqn:Hsdf.
  { intros H. inversion H; subst. eapply err_convert; eassumption. }
  destruct (content_search w ITEM_TITLE "Feature Layer") as [e3 | [| item items]]
    eqn:Hsearch.
  { intros H. inversion H; subst. eapply err_search; eassumption. }
  - destruct (to_featurelayer w ITEM_TITLE filtered_gdf) as [e4 | []] eqn:Hcreate;
      [| discriminate].
    intros H. inversion H; subst. eapply err_create; eassumption.
  - destruct (fromitem w item) as [e4 | []] eqn:Hitem.
    { intros H. inversion H; subst. eapply err_fromitem; eassumption. }
    destruct (overwrite w item filtered_gdf) as [e5 | []] eqn:Hover; [| discriminate].
    intros H. inversion H; subst. eapply err_overwrite; eassumption.
Qed.

(** The error of a library call is not caught where it is raised: it ends
    the pipeline. *)
Lemma library_error_ends_the_pipeline w e :
  library_error w e -> exists t, pipeline w = (t, inl e).
Proof.
  intros Herr. rewrite pipeline_unfold.
  destruct Herr as
    [ Hcsv | fire_df Hcsv Happly | fire_df applied Hcsv Happly Hset
    | t1 fire_gdf H1 Hget | t1 fire_gdf response H1 Hget Hstatus
    | t1 fire_gdf response H1 Hget Hstatus Hread
    | t1 fire_gdf response world_gdf H1 Hget Hstatus Hread Hsel
    | t1 fire_gdf t2 countries_gdf H1 H2 Hjoin
    | t1 fire_gdf t2 countries_gdf joined H1 H2 Hjoin Hdrop
    | t1 fire_gdf t2 countries_gdf t3 filtered_gdf H1 H2 H3 Hgis
    | t1 fire_gdf t2 countries_gdf t3 filtered_gdf H1 H2 H3 Hgis Hsdf
    | t1 fire_gdf t2 countries_gdf t3 filtered_gdf H1 H2 H3 Hgis Hsdf Hsearch
    | t1 fire_gdf t2 countries_gdf t3 filtered_gdf item items H1 H2 H3 Hgis Hsdf Hsearch
        Hitem
    | t1 fire_gdf t2 countries_gdf t3 filtered_gdf item items H1 H2 H3 Hgis Hsdf Hsearch
        Hitem Hover
    | t1 fire_gdf t2 countries_gdf t3 filtered_gdf H1 H2 H3 Hgis Hsdf Hsearch Hcreate ].
  - unfold fetch_fire_data, bind, call, lift, print. rewrite Hcsv.
    eexists; reflexivity.
  - unfold fetch_fire_data, bind, call, lift, print. rewrite Hcsv, Happly.
    eexists; reflexivity.
  - unfold fetch_fire_data, bind, call, lift, print. rewrite Hcsv, Happly, Hset.
    eexists; reflexivity.
  - rewrite H1. unfold fetch_country_boundaries, bind, call, lift, print.
    rewrite Hget. eexists; reflexivity.
  - rewrite H1. unfold fetch_country_boundaries, bind, call, lift, print.
    rewrite Hget, Hstatus. eexists; reflexivity.
  - rewrite H1. unfold fetch_country_boundaries, bind, call, lift, print.
    rewrite Hget, Hstatus, Hread. eexists; reflexivity.
  - rewrite H1. unfold fetch_country_boundaries, bind, call, lift, print.
    rewrite Hget, Hstatus, Hread, Hsel. eexists; reflexivity.
  - rewrite H1, H2. unfold filter_fire_data, bind, lift, print. rewrite Hjoin.
    eexists; reflexivity.
  - rewrite H1, H2. unfold filter_fire_data, bind, lift, print. rewrite Hjoin, Hdrop.
    eexists; reflexivity.
  - rewrite H1, H2, H3. cbv zeta. unfold publish_to_arcgis, bind, call, print.
    rewrite Hgis. eexists; reflexivity.
  - rewrite H1, H2, H3. cbv zeta. unfold publish_to_arcgis, bind, call, print.
    rewrite Hgis, Hsdf. eexists; reflexivity.
  - rewrite H1, H2, H3. cbv zeta. unfold publish_to_arcgis, bind, call, print.
    rewrite Hgis, Hsdf, Hsearch. eexists; reflexivity.
  - rewrite H1, H2, H3. cbv zeta. unfold publish_to_arcgis, bind, call, print.
    rewrite Hgis, Hsdf, Hsearch, Hitem. eexists; reflexivity.
  - rewrite H1, H2, H3. cbv zeta. unfold publish_to_arcgis, bind, call, print.
    rewrite Hgis, Hsdf, Hsearch, Hitem, Hover. eexists; reflexivity.
  - rewrite H1, H2, H3. cbv zeta. unfold publish_to_arcgis, bind, call, print.
    rewrite Hgis, Hsdf, Hsearch, Hcreate. eexists; reflexivity.
Qed.

Lemma pipeline_error_is_a_library_error w t e :
  pipeline w = (t, inl e) -> library_error w e.
Proof.
  rewrite pipeline_unfold.
  destruct (fetch_fire_data w) as [t1 [e1 | fire_gdf]] eqn:H1.
  { intros H. inversion H; subst. eapply fetch_fire_data_raises. exact H1. }
  destruct (fetch_country_boundaries w) as [t2 [e2 | countries_gdf]] eqn:H2.
  { intros H. inversion H; subst. eapply fetch_country_boundaries_raises; eassumption. }
  destruct (filter_fire_data fire_gdf countries_gdf) as [t3 [e3 | filtered_gdf]] eqn:H3.
  { intros H. inversion H; subst. eapply filter_fire_data_raises; eassumption. }
  cbv zeta.
  destruct (publish_to_arcgis w filtered_gdf) as [t4 [e4 | []]] eqn:H4; [| discriminate].
  intros H. inversion H; subst. eapply publish_to_arcgis_raises; eassumption.
Qed.

(** C9. Whatever the environment answers, the error of a stage is not caught
    in the stage: it ends the pipeline where it was raised and reaches the
    handler of the main block, which prints "Error: " and the description of
    the error on standard output and does nothing more.  The run then ends
    normally: exit code 0, nothing on standard error.  No call to the outside
    is made twice in a run.  And no stage swallows the error of a library
    call: whenever a library call that the run reaches raises, whichever
    call of whichever stage, the pipeline ends with that very error and the
    handler prints it; conversely the handler only ever receives the error
    of such a call. *)
Theorem errors_reach_the_top_level_handler (w : World) :
  snd (main w) = inr tt
  /\ exit_code (python (main w)) = 0%Z
  /\ stderr (python (main w)) = []
  /\ (forall t e, pipeline w = (t, inl e) ->
        main w = (t ++ [Print ("Error: " ++ exn_str e)], inr tt)
        /\ stdout (python (main w)) = stdout_of t ++ [("Error: " ++ exn_str e)%string])
  /\ (forall t1 e, fetch_fire_data w = (t1, inl e) -> pipeline w = (t1, inl e))
  /\ (forall t1 fire_gdf t2 e,
        fetch_fire_data w = (t1, inr fire_gdf) ->
        fetch_country_boundaries w = (t2, inl e) ->
        pipeline w = (t1 ++ t2, inl e))
  /\ (forall t1 fire_gdf t2 countries_gdf t3 e,
        fetch_fire_data w = (t1, inr fire_gdf) ->
        fetch_country_boundaries w = (t2, inr countries_gdf) ->
        filter_fire_data fire_gdf countries_gdf = (t3, inl e) ->
        pipeline w = (t1 ++ t2 ++ t3, inl e))
  /\ (forall t1 fire_gdf t2 countries_gdf t3 filtered_gdf t4 e,
        fetch_fire_data w = (t1, inr fire_gdf) ->
        fetch_country_boundaries w = (t2, inr countries_gdf) ->
        filter_fire_data fire_gdf countries_gdf = (t3, inr filtered_gdf) ->
        publish_to_arcgis w filtered_gdf = (t4, inl e) ->
        pipeline w
        = (t1 ++ t2 ++ t3
           ++ Print ("Filtered " ++ str_of_nat (len filtered_gdf) ++ " fire records.")
              :: t4,
           inl e))
  /\ NoDup (calls (fst (main w)))
  /\ (forall e, library_error w e ->
        exists t, pipeline w = (t, inl e)
                  /\ main w = (t ++ [Print ("Error: " ++ exn_str e)], inr tt)
                  /\ last (stdout (python (main w))) EmptyString
                     = ("Error: " ++ exn_str e)%string)
  /\ (forall t e, pipeline w = (t, inl e) -> library_error w e).
Proof.
  pose proof (main_returns w) as Hret.
  split; [exact Hret |].
  split; [unfold python; destruct (main w) as [t [e | a]]; [discriminate | reflexivity] |].
  split; [unfold python; destruct (main w) as [t [e | a]]; [discriminate | reflexivity] |].
  split.
  { intros t e H. rewrite main_unfold, H. split; [reflexivity |].
    unfold python. rewrite stdout_of_app. reflexivity. }
  split; [intros t1 e H1; now rewrite pipeline_unfold, H1 |].
  split; [intros t1 fire_gdf t2 e H1 H2; now rewrite pipeline_unfold, H1, H2 |].
  split.
  { intros t1 fire_gdf t2 countries_gdf t3 e H1 H2 H3.
    now rewrite pipeline_unfold, H1, H2, H3. }
  split.
  { intros t1 fire_gdf t2 countries_gdf t3 filtered_gdf t4 e H1 H2 H3 H4.
    now rewrite pipeline_unfold, H1, H2, H3, H4. }
  split; [apply main_calls_once |].
  split.
  - intros e Herr. destruct (library_error_ends_the_pipeline Herr) as [t H].
    exists t. split; [exact H |]. rewrite main_unfold, H. split; [reflexivity |].
    unfold python. cbn [stdout]. rewrite stdout_of_app. simpl. apply last_last.
  - intros t e H. eapply pipeline_error_is_a_library_error. exact H.
Qed.

Lemma errors_reach_the_top_level_handler_witness :
  main (Sample.world_with_status 500 "Internal Server Error")
  = ([Print "Fetching fire data..."; CallReadCsv FIRE_DATA_URL;
      Print "Fetching country boundaries..."; CallGet COUNTRIES_URL]
     ++ [Print ("Error: "
                ++ exn_str (HTTPError 500 "Internal Server Error" COUNTRIES_URL))],
     inr tt)
  /\ stdout (python (main (Sample.world_with_status 500 "Internal Server Error")))
     = stdout_of [Print "Fetching fire data..."; CallReadCsv FIRE_DATA_URL;
                  Print "Fetching country boundaries..."; CallGet COUNTRIES_URL]
       ++ [("Error: "
            ++ exn_str (HTTPError 500 "Internal Server Error" COUNTRIES_URL))%string].
Proof.
  apply (proj1 (proj2 (proj2 (proj2
           (errors_reach_the_top_level_handler
              (Sample.world_with_status 500 "Internal Server Error")))))).
  vm_compute. reflexivity.
Defined.

(** ** A boundary request answered with an error status *)

Lemma raise_for_status_error response :
  (400 <= status_code response < 600)%Z ->
  raise_for_status response
  = inl (HTTPError (status_code response) (reason response) (url response)).
Proof.
  intros [Hlo Hhi]. unfold raise_for_status.
  apply Z.leb_le in Hlo. apply Z.ltb_lt in Hhi. now rewrite Hlo, Hhi.
Qed.

(** C6 (amended).  When the boundary request is answered with a status from
    400 to 599, [raise_for_status] makes the boundary fetcher raise an
    [HTTPError] right after the request; the run prints the error and ends
    without any call to the portal, hence without any mutation. *)
Theorem http_error_status_aborts_before_publishing (w : World) response :
  requests_get w COUNTRIES_URL = inr response ->
  (400 <= status_code response < 600)%Z ->
  fetch_country_boundaries w
  = ([Print "Fetching country boundaries..."; CallGet COUNTRIES_URL],
     inl (HTTPError (status_code response) (reason response) (url response)))
  /\ filter is_portal_call (fst (main w)) = []
  /\ mutations (fst (main w)) = []
  /\ forall t1 fire_gdf,
       fetch_fire_data w = (t1, inr fire_gdf) ->
       main w
       = (t1 ++ [Print "Fetching country boundaries..."; CallGet COUNTRIES_URL;
                 Print ("Error: "
                        ++ exn_str (HTTPError (status_code response) (reason response)
                                              (url response)))],
          inr tt).
Proof.
  intros Hget Hstatus.
  assert (Hfetch : fetch_country_boundaries w
    = ([Print "Fetching country boundaries..."; CallGet COUNTRIES_URL],
       inl (HTTPError (status_code response) (reason response) (url response)))).
  { unfold fetch_country_boundaries, bind, call, lift, print.
    now rewrite Hget, (raise_for_status_error _ Hstatus). }
  split; [exact Hfetch |].
  pose proof (fetch_fire_data_trace w) as T1.
  rewrite main_unfold, pipeline_unfold, Hfetch.
  destruct (fetch_fire_data w) as [t1 [e | fire_gdf]]; simpl in T1; subst t1.
  - repeat split; try reflexivity. intros t1 fire_gdf H. discriminate H.
  - repeat split; try reflexivity. intros t1 fire_gdf' H. inversion H; subst. reflexivity.
Qed.

Lemma http_error_status_aborts_before_publishing_witness :
  mutations (fst (main (Sample.world_with_status 500 "Internal Server Error"))) = [].
Proof.
  refine (proj1 (proj2 (proj2
            (@http_error_status_aborts_before_publishing
               (Sample.world_with_status 500 "Internal Server Error")
               (Sample.ok_response 500 "Internal Server Error") _ _)))).
  - reflexivity.
  - simpl. lia.
Defined.

(** C6, counterexample.  The boundary request is answered with status 300
    (Multiple Choices), which is not a success status (200 to 299): the
    fetcher does not raise, the run goes on and the portal is mutated. *)
Lemma redirection_status_passes_the_check :
  requests_get (Sample.world_with_status 300 "Multiple Choices") COUNTRIES_URL
  = inr (Sample.ok_response 300 "Multiple Choices")
  /\ ~ (200 <= status_code (Sample.ok_response 300 "Multiple Choices") < 300)%Z
  /\ fetch_country_boundaries (Sample.world_with_status 300 "Multiple Choices")
     = ([Print "Fetching country boundaries..."; CallGet COUNTRIES_URL;
         CallReadFile (text (Sample.ok_response 300 "Multiple Choices"))],
        inr {| columns := ["COUNTRY"; "ISO"];
               rows := [Sample.bolivia; Sample.brazil; Sample.peru] |})
  /\ mutations (fst (main (Sample.world_with_status 300 "Multiple Choices")))
     = [CallToFeatureLayer ITEM_TITLE Sample.sample_filtered].
Proof.
  split; [reflexivity |].
  split; [simpl; lia |].
  split; vm_compute; reflexivity.
Qed.

(** ** No boundary matches the allow-list *)

Lemma stdout_last t line : last (stdout_of (t ++ [Print line])) EmptyString = line.
Proof. rewrite stdout_of_app. simpl. apply last_last. Qed.







(** ** Publisher *)

Lemma fetch_fire_data_no_mutation w : mutations (fst (fetch_fire_data w)) = [].
Proof. now rewrite fetch_fire_data_trace. Qed.

Lemma fetch_country_boundaries_no_mutation w :
  mutations (fst (fetch_country_boundaries w)) = [].
Proof.
  rewrite fetch_country_boundaries_trace.
  destruct (requests_get w COUNTRIES_URL) as [e | response]; [reflexivity |].
  destruct (raise_for_status response); reflexivity.
Qed.

Lemma filter_fire_data_no_mutation fire_gdf countries_gdf :
  mutations (fst (filter_fire_data fire_gdf countries_gdf)) = [].
Proof. now rewrite filter_fire_data_trace. Qed.

Lemma mutations_cons_print line t : mutations (Print line :: t) = mutations t.
Proof. reflexivity. Qed.

Lemma pipeline_inv w t :
  pipeline w = (t, inr tt) ->
  exists t1 fire_gdf t2 countries_gdf t3 filtered_gdf t4,
    fetch_fire_data w = (t1, inr fire_gdf)
    /\ fetch_country_boundaries w = (t2, inr countries_gdf)
    /\ filter_fire_data fire_gdf countries_gdf = (t3, inr filtered_gdf)
    /\ publish_to_arcgis w filtered_gdf = (t4, inr tt)
    /\ t = t1 ++ t2 ++ t3
           ++ Print ("Filtered " ++ str_of_nat (len filtered_gdf) ++ " fire records.")
              :: t4 ++ [Print "Process completed successfully!"]
    /\ mutations t = mutations t4.
Proof.
  rewrite pipeline_unfold.
  pose proof (fetch_fire_data_no_mutation w) as M1.
  pose proof (fetch_country_boundaries_no_mutation w) as M2.
  destruct (fetch_fire_data w) as [t1 [e | fire_gdf]] eqn:H1; [discriminate |].
  destruct (fetch_country_boundaries w) as [t2 [e | countries_gdf]] eqn:H2;
    [discriminate |].
  pose proof (filter_fire_data_no_mutation fire_gdf countries_gdf) as M3.
  destruct (filter_fire_data fire_gdf countries_gdf) as [t3 [e | filtered_gdf]] eqn:H3;
    [discriminate |].
  cbv zeta.
  destruct (publish_to_arcgis w filtered_gdf) as [t4 [e | []]] eqn:H4; [discriminate |].
  intros H. inversion H; subst. cbn [fst] in M1, M2, M3.
  exists t1, fire_gdf, t2, countries_gdf, t3, filtered_gdf, t4.
  repeat split; try assumption.
  rewrite !mutations_app, mutations_cons_print, mutations_app, M1, M2, M3.
  cbn [app]. apply app_nil_r.
Qed.

(** The trace of a run that completes. *)
Lemma successful_run_trace w t :
  pipeline w = (t, inr tt) ->
  exists t1 fire_gdf t2 countries_gdf t3 filtered_gdf response items,
    fetch_fire_data w = (t1, inr fire_gdf)
    /\ fetch_country_boundaries w = (t2, inr countries_gdf)
    /\ filter_fire_data fire_gdf countries_gdf = (t3, inr filtered_gdf)
    /\ content_search w ITEM_TITLE "Feature Layer" = inr items
    /\ t = [Print "Fetching fire data..."; CallReadCsv FIRE_DATA_URL;
            Print "Fetching country boundaries..."; CallGet COUNTRIES_URL;
            CallReadFile (text response);
            Print "Filtering fire data...";
            Print ("Filtered " ++ str_of_nat (len filtered_gdf) ++ " fire records.");
            Print "Publishing to ArcGIS Online...";
            CallGIS PORTAL_URL USERNAME PASSWORD;
            CallFromGeoDataFrame filtered_gdf;
            CallSearch ITEM_TITLE "Feature Layer"]
           ++ match items with
              | item :: _ => [Print "Updating existing layer...";
                              CallFromItem item;
                              CallOverwrite item filtered_gdf]
              | [] => [Print "Creating a new feature layer...";
                       CallToFeatureLayer ITEM_TITLE filtered_gdf]
              end
           ++ [Print "Publishing complete!"; Print "Process completed successfully!"].
Proof.
  intros H.
  destruct (pipeline_inv _ H)
    as (t1 & fire_gdf & t2 & countries_gdf & t3 & filtered_gdf & t4
        & H1 & H2 & H3 & H4 & Ht & _).
  destruct (publish_to_arcgis_inv _ _ H4) as (_ & _ & items & Hsearch & Hpub).
  destruct (fetch_country_boundaries_inv _ H2)
    as (response & world_gdf & Hget & Hstatus & _).
  exists t1, fire_gdf, t2, countries_gdf, t3, filtered_gdf, response, items.
  repeat (split; [assumption |]).
  pose proof (fetch_fire_data_trace w) as T1. rewrite H1 in T1. cbn [fst] in T1.
  pose proof (fetch_country_boundaries_trace w) as T2.
  rewrite H2, Hget, Hstatus in T2. cbn [fst] in T2.
  pose proof (filter_fire_data_trace fire_gdf countries_gdf) as T3.
  rewrite H3 in T3. cbn [fst] in T3.
  rewrite Ht, T1, T2, T3.
  destruct items as [| item items].
  - destruct Hpub as [_ ->]. reflexivity.
  - destruct Hpub as (_ & _ & ->). reflexivity.
Qed.

Lemma overwritten_identity target sdf it :
  item_id (overwritten target sdf it) = item_id it
  /\ item_title (overwritten target sdf it) = item_title it
  /\ item_type (overwritten target sdf it) = item_type it
  /\ item_url (overwritten target sdf it) = item_url it
  /\ item_shared (overwritten target sdf it) = item_shared it.
Proof.
  unfold overwritten. destruct (String.eqb (item_id it) (item_id target)); auto.
Qed.

Lemma overwritten_data target sdf (portal : list Item) it :
  In it (map (overwritten target sdf) portal) ->
  item_id it = item_id target -> item_data it = sdf.
Proof.
  intros Hin Hid. apply in_map_iff in Hin. destruct Hin as (it0 & <- & _).
  destruct (overwritten_identity target sdf it0) as (Hid0 & _).
  rewrite Hid0 in Hid. unfold overwritten.
  apply String.eqb_eq in Hid. now rewrite Hid.
Qed.

(** C2 (amended).  In a run that completes, the publisher has searched the
    portal once, with the title of the script as query text and item type
    "Feature Layer".  If the search returned items, the run took the first
    item returned, whatever its title, opened the feature layer collection
    of that very item and overwrote it, and that overwrite is the only
    mutation: on the portal every item keeps its ID, title, type, URL and
    sharing settings, no item is added or removed, and the data of the item
    found is the filtered frame.  If the search returned none, the run
    created a feature layer with the title of the script, and that creation
    is the only mutation: the portal has its former items, unchanged, and
    the new one. *)
Theorem successful_run_overwrites_first_hit_or_creates (w : World) t :
  pipeline w = (t, inr tt) ->
  exists filtered_gdf items,
    content_search w ITEM_TITLE "Feature Layer" = inr items
    /\ filter (fun ev => match ev with CallSearch _ _ => true | _ => false end) t
       = [CallSearch ITEM_TITLE "Feature Layer"]
    /\ mutations t = match items with
                     | item :: _ => [CallOverwrite item filtered_gdf]
                     | [] => [CallToFeatureLayer ITEM_TITLE filtered_gdf]
                     end
    /\ List.length (mutations t) = 1
    /\ (exists t1 fire_gdf t2 countries_gdf t3,
          fetch_fire_data w = (t1, inr fire_gdf)
          /\ fetch_country_boundaries w = (t2, inr countries_gdf)
          /\ filter_fire_data fire_gdf countries_gdf = (t3, inr filtered_gdf))
    /\ filter is_portal_call t
       = [CallGIS PORTAL_URL USERNAME PASSWORD;
          CallFromGeoDataFrame filtered_gdf;
          CallSearch ITEM_TITLE "Feature Layer"]
         ++ match items with
            | item :: _ => [CallFromItem item; CallOverwrite item filtered_gdf]
            | [] => [CallToFeatureLayer ITEM_TITLE filtered_gdf]
            end
    /\ forall fresh portal,
         match items with
         | item :: _ =>
             portal_after fresh portal t = map (overwritten item filtered_gdf) portal
             /\ map item_id (portal_after fresh portal t) = map item_id portal
             /\ map item_title (portal_after fresh portal t) = map item_title portal
             /\ map item_type (portal_after fresh portal t) = map item_type portal
             /\ map item_url (portal_after fresh portal t) = map item_url portal
             /\ map item_shared (portal_after fresh portal t) = map item_shared portal
             /\ (forall it, In it (portal_after fresh portal t) ->
                   item_id it = item_id item -> item_data it = filtered_gdf)
         | [] =>
             portal_after fresh portal t
             = portal ++ [created fresh ITEM_TITLE filtered_gdf]
         end.
Proof.
  intros H.
  destruct (successful_run_trace _ H)
    as (t1 & fire_gdf & t2 & countries_gdf & t3 & filtered_gdf & response & items
        & H1 & H2 & H3 & Hsearch & Ht).
  exists filtered_gdf, items.
  split; [exact Hsearch |].
  split; [rewrite Ht; destruct items; reflexivity |].
  split; [rewrite Ht; destruct items; reflexivity |].
  split; [rewrite Ht; destruct items; reflexivity |].
  split; [exists t1, fire_gdf, t2, countries_gdf, t3; auto |].
  split; [rewrite Ht; destruct items; reflexivity |].
  intros fresh portal. destruct items as [| item items].
  - rewrite Ht. reflexivity.
  - assert (Hafter : portal_after fresh portal t
                     = map (overwritten item filtered_gdf) portal)
      by (rewrite Ht; reflexivity).
    rewrite Hafter. split; [reflexivity |].
    repeat split; try (rewrite map_map; apply map_ext; intros it;
                       apply (overwritten_identity item filtered_gdf it)).
    intros it Hin Hid. eapply overwritten_data; eassumption.
Qed.

Lemma successful_run_overwrites_first_hit_or_creates_witness :
  (exists filtered_gdf,
     mutations (fst (pipeline Sample.world))
     = [CallToFeatureLayer ITEM_TITLE filtered_gdf])
  /\ (exists filtered_gdf,
        filter is_portal_call (fst (pipeline Sample.world_with_archive))
        = [CallGIS PORTAL_URL USERNAME PASSWORD;
           CallFromGeoDataFrame filtered_gdf;
           CallSearch ITEM_TITLE "Feature Layer";
           CallFromItem Sample.archive_item;
           CallOverwrite Sample.archive_item filtered_gdf]
        /\ map item_id (portal_after Sample.archive_item [Sample.archive_item]
                          (fst (pipeline Sample.world_with_archive)))
           = [item_id Sample.archive_item]
        /\ map item_url (portal_after Sample.archive_item [Sample.archive_item]
                           (fst (pipeline Sample.world_with_archive)))
           = [item_url Sample.archive_item]
        /\ map item_shared (portal_after Sample.archive_item [Sample.archive_item]
                              (fst (pipeline Sample.world_with_archive)))
           = [item_shared Sample.archive_item]).
Proof.
  split.
  - destruct (@successful_run_overwrites_first_hit_or_creates Sample.world
                (fst (pipeline Sample.world)))
      as (filtered_gdf & items & Hsearch & _ & Hmut & _).
    + vm_compute. reflexivity.
    + simpl in Hsearch. inversion Hsearch; subst items.
      exists filtered_gdf. exact Hmut.
  - destruct (@successful_run_overwrites_first_hit_or_creates Sample.world_with_archive
                (fst (pipeline Sample.world_with_archive)))
      as (filtered_gdf & items & Hsearch & _ & _ & _ & _ & Hcalls & Hportal).
    + vm_compute. reflexivity.
    + vm_compute in Hsearch. inversion Hsearch; subst items.
      exists filtered_gdf. split; [exact Hcalls |].
      destruct (Hportal Sample.archive_item [Sample.archive_item])
        as (_ & Hid & _ & _ & Hurl & Hshared & _).
      auto.
Defined.

(** C2, counterexample.  The portal holds one feature layer, whose title is
    not the title of the script but contains it, and its search matches
    titles by keyword.  No item has exactly the title of the script, yet the
    run does not create a layer: it overwrites the layer of the other
    title. *)
Lemma publisher_overwrites_a_layer_of_another_title :
  content_search Sample.world_with_archive ITEM_TITLE "Feature Layer"
  = inr [Sample.archive_item]
  /\ item_title Sample.archive_item <> ITEM_TITLE
  /\ snd (pipeline Sample.world_with_archive) = inr tt
  /\ mutations (fst (pipeline Sample.world_with_archive))
     = [CallOverwrite Sample.archive_item Sample.sample_filtered]
  /\ mutations (fst (pipeline Sample.world_with_archive))
     <> [CallToFeatureLayer ITEM_TITLE Sample.sample_filtered].
Proof.
  split; [vm_compute; reflexivity |].
  split; [vm_compute; discriminate |].
  split; [vm_compute; reflexivity |].
  split; [vm_compute; reflexivity |].
  vm_compute. discriminate.
Qed.

(** ** The frames the fetchers build meet the assumptions made above *)

Lemma enumerate_fst {A} (l : list A) s :
  map fst (combine (seq s (List.length l)) l) = seq s (List.length l).
Proof.
  revert s. induction l as [| a l IH]; intros s; simpl; [reflexivity |].
  now rewrite IH.
Qed.

(** The fire frame has the index labels 0, 1, 2, ...: they are distinct. *)
Lemma fetch_fire_data_index_unique w t gdf :
  fetch_fire_data w = (t, inr gdf) -> NoDup (map index (rows gdf)).
Proof.
  intros H. destruct (fetch_fire_data_inv _ H) as (fire_df & values & _ & _ & -> & _).
  unfold to_GeoDataFrame. simpl. rewrite map_map. simpl.
  rewrite <- (map_map fst (fun i => i)), enumerate_fst, map_id.
  apply seq_NoDup.
Qed.

Lemma remove_col_keys c (r : Record_) :
  map fst (remove_col c r) = filter (fun k => negb (String.eqb k c)) (map fst r).
Proof.
  induction r as [| [k v] r IH]; simpl; [reflexivity |].
  destruct (String.eqb k c); simpl; now rewrite IH.
Qed.

(** When every record of the feed has the columns of the feed, so has every
    record of the fire frame. *)
Lemma fetch_fire_data_wf w t gdf fire_df :
  read_csv w FIRE_DATA_URL = inr fire_df ->
  Forall (fun row => map fst row = df_columns fire_df) (df_rows fire_df) ->
  fetch_fire_data w = (t, inr gdf) -> wf_frame gdf.
Proof.
  intros Hcsv Hwf H.
  destruct (fetch_fire_data_inv _ H) as (fire_df' & values & Hcsv' & _ & -> & _).
  rewrite Hcsv in Hcsv'. inversion Hcsv'; subst fire_df'.
  unfold wf_frame, to_GeoDataFrame. simpl. apply Forall_forall.
  intros r Hr. apply in_map_iff in Hr. destruct Hr as ([i [row g]] & <- & Hin).
  simpl. rewrite remove_col_keys.
  apply in_combine_r in Hin. apply in_combine_l in Hin.
  rewrite Forall_forall in Hwf. now rewrite (Hwf row Hin).
Qed.

(** The boundary fetcher keeps the well-formedness of the parsed frame. *)
Lemma fetch_country_boundaries_wf w t gdf world_gdf response :
  requests_get w COUNTRIES_URL = inr response ->
  read_file w (text response) = inr world_gdf ->
  wf_frame world_gdf ->
  fetch_country_boundaries w = (t, inr gdf) -> wf_frame gdf.
Proof.
  intros Hget Hread Hwf H.
  destruct (fetch_country_boundaries_inv _ H)
    as (response' & world_gdf' & Hget' & _ & Hread' & _ & ->).
  rewrite Hget in Hget'. inversion Hget'; subst response'.
  rewrite Hread in Hread'. inversion Hread'; subst world_gdf'.
  unfold wf_frame in *. simpl. rewrite Forall_forall in *.
  intros r Hr. apply filter_In in Hr. now apply Hwf.
Qed.

(** A point of the border intersects the polygon but is not within it. *)
Example border_point_intersects_but_is_not_within :
  intersects (Sample.pt 30 5) (geometry Sample.peru) = true
  /\ within (Sample.pt 30 5) (geometry Sample.peru) = false
  /\ within (Sample.pt 29 5) (geometry Sample.peru) = true.
Proof. repeat split; vm_compute; reflexivity. Qed.


(** * Further properties of the stages *)

(** ** Fire data fetcher: what is kept, what is raised *)

Lemma enumerate_snd {A} (l : list A) s :
  map snd (combine (seq s (List.length l)) l) = l.
Proof.
  revert s. induction l as [| a l IH]; intros s; simpl; [reflexivity |].
  now rewrite IH.
Qed.

Lemma combine_fst {A B} (l : list A) (l' : list B) :
  List.length l' = List.length l -> map fst (combine l l') = l.
Proof.
  revert l'. induction l as [| a l IH]; intros [| b l'] H; simpl in *;
    try discriminate; [reflexivity |].
  f_equal. apply IH. congruence.
Qed.

Lemma lookup_remove_col k c (r : Record_) :
  k <> c -> lookup k (remove_col c r) = lookup k r.
Proof.
  intros Hk. induction r as [| [k' v] r IH]; simpl; [reflexivity |].
  destruct (String.eqb k' c) eqn:E; simpl.
  - apply String.eqb_eq in E. subst k'.
    apply String.eqb_neq in Hk. now rewrite Hk.
  - now rewrite IH.
Qed.

(** X1. The fire frame has the records of the feed in their order, labelled
    0, 1, 2, ...; each record keeps every cell of the feed record except a
    cell named "geometry", whose place the point takes. *)
Theorem fire_frame_keeps_feed_records (w : World) t gdf :
  fetch_fire_data w = (t, inr gdf) ->
  exists fire_df,
    read_csv w FIRE_DATA_URL = inr fire_df
    /\ map index (rows gdf) = seq 0 (List.length (df_rows fire_df))
    /\ map attrs (rows gdf) = map (remove_col "geometry") (df_rows fire_df)
    /\ columns gdf = filter (fun c => negb (String.eqb c "geometry")) (df_columns fire_df)
    /\ forall i r row k,
         nth_error (rows gdf) i = Some r ->
         nth_error (df_rows fire_df) i = Some row ->
         k <> "geometry" -> lookup k (attrs r) = lookup k row.
Proof.
  intros H.
  destruct (fetch_fire_data_inv _ H) as (fire_df & values & Hcsv & Hm & -> & _).
  destruct (map_result_nth _ _ Hm) as [Hlen Hnth].
  exists fire_df. split; [exact Hcsv |].
  assert (Hn : List.length (combine (df_rows fire_df) values)
               = List.length (df_rows fire_df))
    by (rewrite length_combine, Hlen; apply Nat.min_id).
  assert (Hattrs : map attrs (rows (to_GeoDataFrame (df_columns fire_df)
                                      (combine (df_rows fire_df) values)))
                   = map (remove_col "geometry") (df_rows fire_df)).
  { unfold to_GeoDataFrame. cbn [rows]. rewrite map_map. cbn [attrs].
    rewrite <- (map_map (fun ir => fst (snd ir)) (remove_col "geometry")).
    rewrite <- (map_map snd fst), enumerate_snd, combine_fst by exact Hlen.
    reflexivity. }
  split; [| split; [exact Hattrs | split; [reflexivity |]]].
  - unfold to_GeoDataFrame. cbn [rows]. rewrite map_map. cbn [index].
    rewrite <- (map_map fst (fun i => i)), enumerate_fst, map_id, Hn. reflexivity.
  - intros i r row k Hr Hrow Hk.
    assert (E : nth_error (map attrs (rows (to_GeoDataFrame (df_columns fire_df)
                                              (combine (df_rows fire_df) values)))) i
                = Some (attrs r))
      by (rewrite nth_error_map, Hr; reflexivity).
    rewrite Hattrs, nth_error_map, Hrow in E. inversion E as [E'].
    apply lookup_remove_col. exact Hk.
Qed.

Lemma fire_frame_keeps_feed_records_witness :
  exists fire_df,
    read_csv Sample.world FIRE_DATA_URL = inr fire_df
    /\ map index (rows Sample.fire_gdf) = seq 0 (List.length (df_rows fire_df))
    /\ map attrs (rows Sample.fire_gdf) = map (remove_col "geometry") (df_rows fire_df)
    /\ columns Sample.fire_gdf
       = filter (fun c => negb (String.eqb c "geometry")) (df_columns fire_df)
    /\ forall i r row k,
         nth_error (rows Sample.fire_gdf) i = Some r ->
         nth_error (df_rows fire_df) i = Some row ->
         k <> "geometry" -> lookup k (attrs r) = lookup k row.
Proof.
  apply (@fire_frame_keeps_feed_records Sample.world
           [Print "Fetching fire data..."; CallReadCsv FIRE_DATA_URL]).
  reflexivity.
Defined.

(** X2. When the feed cannot be read, the fire fetcher raises the error of
    the reader.  When the feed has records and its first record has no cell
    "longitude", the fetcher raises [KeyError] for "longitude"; when it has
    that cell but no cell "latitude", it raises [KeyError] for "latitude".
    In each case nothing is requested after the feed. *)
Theorem fire_fetcher_errors (w : World) :
  (forall e, read_csv w FIRE_DATA_URL = inl e ->
     fetch_fire_data w
     = ([Print "Fetching fire data..."; CallReadCsv FIRE_DATA_URL], inl e))
  /\ (forall fire_df row rest,
        read_csv w FIRE_DATA_URL = inr fire_df ->
        df_rows fire_df = row :: rest ->
        lookup "longitude" row = None ->
        fetch_fire_data w
        = ([Print "Fetching fire data..."; CallReadCsv FIRE_DATA_URL],
           inl (KeyError "longitude")))
  /\ (forall fire_df row rest lon,
        read_csv w FIRE_DATA_URL = inr fire_df ->
        df_rows fire_df = row :: rest ->
        lookup "longitude" row = Some lon ->
        lookup "latitude" row = None ->
        fetch_fire_data w
        = ([Print "Fetching fire data..."; CallReadCsv FIRE_DATA_URL],
           inl (KeyError "latitude"))).
Proof.
  split; [| split].
  - intros e H. unfold fetch_fire_data, bind, call, lift, print. now rewrite H.
  - intros fire_df row rest Hcsv Hrows Hlon.
    unfold fetch_fire_data, bind, call, lift, print, apply_axis1.
    rewrite Hcsv, Hrows. cbn [map_result]. unfold point_of_row, getitem.
    rewrite Hlon. reflexivity.
  - intros fire_df row rest lon Hcsv Hrows Hlon Hlat.
    unfold fetch_fire_data, bind, call, lift, print, apply_axis1.
    rewrite Hcsv, Hrows. cbn [map_result]. unfold point_of_row, getitem.
    rewrite Hlon, Hlat. reflexivity.
Qed.

Lemma fire_fetcher_errors_witness :
  fetch_fire_data Sample.world_without_longitude
  = ([Print "Fetching fire data..."; CallReadCsv FIRE_DATA_URL],
     inl (KeyError "longitude")).
Proof.
  apply (proj1 (proj2 (fire_fetcher_errors Sample.world_without_longitude))
           Sample.feed_without_longitude
           [("latitude", CNum (inject_Z 5)); ("confidence", CNum (inject_Z 80))] []);
    reflexivity.
Defined.

(** ** Boundary fetcher: what is kept, what is raised *)

(** X3. The boundary fetcher retains exactly the downloaded records whose
    COUNTRY cell is one of the three names: none of them is lost, they stay in
    the order of the download, and index label, attributes, geometry and the
    columns of the frame are unchanged. *)
Theorem boundary_fetcher_keeps_every_match (w : World) t gdf :
  fetch_country_boundaries w = (t, inr gdf) ->
  exists response world_gdf,
    requests_get w COUNTRIES_URL = inr response
    /\ read_file w (text response) = inr world_gdf
    /\ columns gdf = columns world_gdf
    /\ rows gdf
       = filter (fun r => isin COUNTRIES_TO_KEEP (lookup "COUNTRY" (attrs r)))
                (rows world_gdf)
    /\ (forall r, In r (rows gdf)
                  <-> In r (rows world_gdf)
                      /\ exists name, lookup "COUNTRY" (attrs r) = Some (CStr name)
                                      /\ In name COUNTRIES_TO_KEEP)
    /\ List.length (rows gdf) <= List.length (rows world_gdf).
Proof.
  intros H.
  destruct (fetch_country_boundaries_inv _ H)
    as (response & world_gdf & Hget & _ & Hread & _ & ->).
  exists response, world_gdf. cbn [columns rows].
  split; [exact Hget |]. split; [exact Hread |]. split; [reflexivity |].
  split; [reflexivity |]. split; [| apply filter_length_le].
  intros r. rewrite filter_In. split.
  - intros [Hr Hkeep]. split; [exact Hr |]. unfold isin in Hkeep.
    destruct (lookup "COUNTRY" (attrs r)) as [[q | name] |]; try discriminate.
    exists name. split; [reflexivity | now apply mem_In].
  - intros (Hr & name & Hname & Hin). split; [exact Hr |].
    unfold isin. rewrite Hname. now apply mem_In.
Qed.

Lemma boundary_fetcher_keeps_every_match_witness :
  exists response world_gdf,
    requests_get Sample.world COUNTRIES_URL = inr response
    /\ read_file Sample.world (text response) = inr world_gdf
    /\ columns Sample.countries_gdf = columns world_gdf
    /\ rows {| columns := ["COUNTRY"; "ISO"];
               rows := [Sample.bolivia; Sample.brazil; Sample.peru] |}
       = filter (fun r => isin COUNTRIES_TO_KEEP (lookup "COUNTRY" (attrs r)))
                (rows world_gdf).
Proof.
  destruct (@boundary_fetcher_keeps_every_match Sample.world
              (fst (fetch_country_boundaries Sample.world))
              {| columns := ["COUNTRY"; "ISO"];
                 rows := [Sample.bolivia; Sample.brazil; Sample.peru] |} eq_refl)
    as (response & world_gdf & H1 & H2 & H3 & H4 & _).
  exists response, world_gdf. auto.
Defined.

(** X4. The boundary fetcher raises what the request raises, without reading
    anything; it raises what the parser raises; and it raises [KeyError] for
    "COUNTRY" when the parsed frame has no such column, even if the frame has
    no records. *)
Theorem boundary_fetcher_errors (w : World) :
  (forall e, requests_get w COUNTRIES_URL = inl e ->
     fetch_country_boundaries w
     = ([Print "Fetching country boundaries..."; CallGet COUNTRIES_URL], inl e))
  /\ (forall response e,
        requests_get w COUNTRIES_URL = inr response ->
        raise_for_status response = inr tt ->
        read_file w (text response) = inl e ->
        fetch_country_boundaries w
        = ([Print "Fetching country boundaries..."; CallGet COUNTRIES_URL;
            CallReadFile (text response)], inl e))
  /\ (forall response world_gdf,
        requests_get w COUNTRIES_URL = inr response ->
        raise_for_status response = inr tt ->
        read_file w (text response) = inr world_gdf ->
        mem "COUNTRY" (columns world_gdf) = false ->
        fetch_country_boundaries w
        = ([Print "Fetching country boundaries..."; CallGet COUNTRIES_URL;
            CallReadFile (text response)], inl (KeyError "COUNTRY"))).
Proof.
  split; [| split].
  - intros e H. unfold fetch_country_boundaries, bind, call, lift, print.
    now rewrite H.
  - intros response e Hget Hstatus Hread.
    unfold fetch_country_boundaries, bind, call, lift, print.
    now rewrite Hget, Hstatus, Hread.
  - intros response world_gdf Hget Hstatus Hread Hcol.
    unfold fetch_country_boundaries, bind, call, lift, print, select_isin.
    now rewrite Hget, Hstatus, Hread, Hcol.
Qed.

Lemma boundary_fetcher_errors_witness :
  fetch_country_boundaries Sample.world_without_country_column
  = ([Print "Fetching country boundaries..."; CallGet COUNTRIES_URL;
      CallReadFile (text (Sample.ok_response 200 "OK"))], inl (KeyError "COUNTRY")).
Proof.
  apply (proj2 (proj2 (boundary_fetcher_errors Sample.world_without_country_column))
           (Sample.ok_response 200 "OK")
           {| columns := ["NAME"];
              rows := [{| index := 0; attrs := [("NAME", CStr "Brazil")];
                          geometry := Sample.rectangle 0 0 10 10 |}] |});
    reflexivity.
Defined.

(** ** Spatial filter: when it returns, what it returns *)

(** X6. Containment both ways, whatever the index labels: every record of
    the filtered frame has the index label and the geometry of a fire record,
    and that point is within a retained polygon, hence not on its boundary;
    and every fire record whose point is within a retained polygon has a
    record in the filtered frame. *)
Theorem filtered_points_are_within_a_retained_polygon
  (fire_gdf : GeoDataFrame PointGeom) (countries_gdf : GeoDataFrame Polygonal) t res :
  filter_fire_data fire_gdf countries_gdf = (t, inr res) ->
  (forall r, In r (rows res) ->
     exists f c, In f (rows fire_gdf) /\ In c (rows countries_gdf)
                 /\ index r = index f /\ geometry r = geometry f
                 /\ within (geometry r) (geometry c) = true
                 /\ on_boundary (geometry r) (geometry c) = false)
  /\ (forall f c, In f (rows fire_gdf) -> In c (rows countries_gdf) ->
        within (geometry f) (geometry c) = true ->
        exists r, In r (rows res) /\ index r = index f /\ geometry r = geometry f).
Proof.
  intros H. split.
  - intros r Hr.
    destruct (@filtered_rows_origin _ _ _ _ _ H Hr) as (f & c & Hf & Hc & Hw & ->).
    exists f, c. cbn [index geometry drop_row join_rows].
    repeat split; try assumption.
    unfold within in Hw. apply andb_prop in Hw. destruct Hw as [Hb _].
    now apply negb_true_iff in Hb.
  - intros f c Hf Hc Hw.
    destruct (filter_fire_data_inv _ _ H) as (_ & Hrows & _).
    exists (drop_row ["index_right"]
              (join_rows (suffixed (columns countries_gdf) "_left")
                         (suffixed (columns fire_gdf) "_right") f c)).
    split; [| split; reflexivity]. rewrite Hrows.
    apply in_map. unfold sjoin_rows. apply in_flat_map. exists f.
    split; [exact Hf |]. apply in_map. unfold matches. apply filter_In. auto.
Qed.

Lemma filtered_points_are_within_a_retained_polygon_witness :
  exists r, In r (rows Sample.sample_filtered)
            /\ index r = 0 /\ geometry r = Sample.pt 5 5.
Proof.
  refine (proj2 (@filtered_points_are_within_a_retained_polygon
                   Sample.fire_gdf Sample.countries_gdf
                   [Print "Filtering fire data..."] Sample.sample_filtered _)
            {| index := 0; attrs := Sample.fire_record (inject_Z 5) (inject_Z 5);
               geometry := Sample.pt 5 5 |} Sample.brazil _ _ _).
  - vm_compute. reflexivity.
  - vm_compute. left. reflexivity.
  - simpl. auto.
  - vm_compute. reflexivity.
Defined.

Lemma joined_index_labels lname rname cs (f : Row PointGeom) (ms : list (Row Polygonal)) :
  map index (map (drop_row cs) (map (join_rows lname rname f) ms))
  = repeat (index f) (List.length ms).
Proof. induction ms as [| c ms IH]; simpl; [reflexivity | now rewrite IH]. Qed.

Lemma filtered_index_labels fire_gdf countries_gdf t res :
  filter_fire_data fire_gdf countries_gdf = (t, inr res) ->
  map index (rows res)
  = flat_map (fun f => repeat (index f) (List.length (matches f countries_gdf)))
             (rows fire_gdf).
Proof.
  intros H. destruct (filter_fire_data_inv _ _ H) as (_ & Hrows & _).
  rewrite Hrows. unfold sjoin_rows.
  induction (rows fire_gdf) as [| f fs IH]; simpl; [reflexivity |].
  now rewrite !map_app, joined_index_labels, IH.
Qed.

Lemma repeated_labels_length {A} (n : A -> nat) (label : A -> nat) (bound : nat)
  (l : list A) :
  (forall a, In a l -> n a <= bound) ->
  List.length (flat_map (fun a => repeat (label a) (n a)) l) <= List.length l * bound.
Proof.
  induction l as [| a l IH]; intros Hb; simpl; [lia |].
  rewrite length_app, repeat_length.
  assert (n a <= bound) by (apply Hb; now left).
  assert (List.length (flat_map (fun a => repeat (label a) (n a)) l)
          <= List.length l * bound) by (apply IH; intros x Hx; apply Hb; now right).
  lia.
Qed.

(** X7. The filtered frame follows the order of the fire frame: its index
    labels are those of the fire records in their order, each repeated as
    many times as there are retained polygons its point is within.  So a
    fire frame with increasing labels gives a filtered frame with
    non-decreasing labels, and the filtered frame has at most as many
    records as there are pairs of a fire record and a retained polygon. *)
Theorem filtered_frame_follows_fire_order
  (fire_gdf : GeoDataFrame PointGeom) (countries_gdf : GeoDataFrame Polygonal) t res :
  filter_fire_data fire_gdf countries_gdf = (t, inr res) ->
  map index (rows res)
  = flat_map (fun f => repeat (index f) (List.length (matches f countries_gdf)))
             (rows fire_gdf)
  /\ len res <= len fire_gdf * len countries_gdf
  /\ (rows fire_gdf = [] -> rows res = []).
Proof.
  intros H. pose proof (filtered_index_labels _ _ H) as Hidx.
  split; [exact Hidx |]. split.
  - unfold len. rewrite <- (length_map index (rows res)), Hidx.
    apply repeated_labels_length. intros f _. unfold matches. apply filter_length_le.
  - intros Hempty. rewrite Hempty in Hidx. simpl in Hidx.
    destruct (rows res); [reflexivity | discriminate].
Qed.

Lemma filtered_frame_follows_fire_order_witness :
  map index (rows Sample.overlap_filtered)
  = flat_map (fun f => repeat (index f)
                         (List.length (matches f Sample.overlap_countries)))
             (rows Sample.overlap_fires).
Proof.
  refine (proj1 (@filtered_frame_follows_fire_order
                   Sample.overlap_fires Sample.overlap_countries
                   [Print "Filtering fire data..."] Sample.overlap_filtered _)).
  vm_compute. reflexivity.
Defined.

Lemma repeated_labels_in {A} (n : A -> nat) (label : A -> nat) (l : list A) i :
  In i (flat_map (fun a => repeat (label a) (n a)) l) -> In i (map label l).
Proof.
  induction l as [| a l IH]; simpl; [tauto |].
  rewrite in_app_iff. intros [Hi | Hi].
  - left. symmetry. eapply repeat_spec. exact Hi.
  - right. now apply IH.
Qed.

(** X8. When the index labels of the fire frame are distinct and no fire
    point is within two retained polygons, the index labels of the filtered
    frame are distinct too, and the filtered frame has at most as many
    records as the fire frame. *)
Theorem disjoint_polygons_keep_labels_distinct
  (fire_gdf : GeoDataFrame PointGeom) (countries_gdf : GeoDataFrame Polygonal) t res :
  NoDup (map index (rows fire_gdf)) ->
  (forall f, In f (rows fire_gdf) -> List.length (matches f countries_gdf) <= 1) ->
  filter_fire_data fire_gdf countries_gdf = (t, inr res) ->
  NoDup (map index (rows res)) /\ len res <= len fire_gdf.
Proof.
  intros Hnd Hone H. pose proof (filtered_index_labels _ _ H) as Hidx.
  split.
  - rewrite Hidx. clear Hidx H.
    induction (rows fire_gdf) as [| f fs IH]; simpl; [constructor |].
    simpl in Hnd. inversion Hnd as [| ? ? Hnotin Hnd']; subst.
    assert (Hrest : NoDup (flat_map
                             (fun f => repeat (index f)
                                         (List.length (matches f countries_gdf))) fs))
      by (apply IH; [exact Hnd' | intros x Hx; apply Hone; now right]).
    assert (Hf : List.length (matches f countries_gdf) <= 1) by (apply Hone; now left).
    destruct (List.length (matches f countries_gdf)) as [| [| n]]; simpl.
    + exact Hrest.
    + constructor; [| exact Hrest].
      intros Hin. apply Hnotin. eapply repeated_labels_in. exact Hin.
    + lia.
  - unfold len. rewrite <- (length_map index (rows res)), Hidx.
    rewrite <- (Nat.mul_1_r (List.length (rows fire_gdf))).
    apply repeated_labels_length. exact Hone.
Qed.

Lemma disjoint_polygons_keep_labels_distinct_witness :
  NoDup (map index (rows Sample.sample_filtered))
  /\ len Sample.sample_filtered <= len Sample.fire_gdf.
Proof.
  apply (@disjoint_polygons_keep_labels_distinct
           Sample.fire_gdf Sample.countries_gdf
           [Print "Filtering fire data..."] Sample.sample_filtered).
  - simpl. repeat constructor; simpl; intuition discriminate.
  - intros f Hf. simpl in Hf.
    destruct Hf as [<- | [<- | [<- | []]]]; vm_compute; repeat constructor.
  - vm_compute. reflexivity.
Defined.

Lemma map_fst_filter (p : string -> bool) (r : Record_) :
  map fst (filter (fun kv => p (fst kv)) r) = filter p (map fst r).
Proof.
  induction r as [| [k v] r IH]; simpl; [reflexivity |].
  destruct (p k); simpl; now rewrite IH.
Qed.

Lemma rename_keys_fst (f : string -> string) (r : Record_) :
  map fst (rename_keys f r) = map f (map fst r).
Proof. unfold rename_keys. now rewrite !map_map. Qed.

(** X9. The spatial filter keeps frames well formed: when every record of
    the two frames has the columns of its frame, every record of the filtered
    frame has the columns of the filtered frame, in order. *)
Theorem filtered_frame_is_well_formed
  (fire_gdf : GeoDataFrame PointGeom) (countries_gdf : GeoDataFrame Polygonal) t res :
  wf_frame fire_gdf -> wf_frame countries_gdf ->
  filter_fire_data fire_gdf countries_gdf = (t, inr res) ->
  wf_frame res.
Proof.
  intros Hwf Hwf' H. destruct (filter_fire_data_inv _ _ H) as (_ & _ & Hcols).
  unfold wf_frame. apply Forall_forall. intros r Hr.
  destruct (@filtered_rows_origin _ _ _ _ _ H Hr) as (f & c & Hf & Hc & _ & ->).
  unfold wf_frame in Hwf, Hwf'. rewrite Forall_forall in Hwf, Hwf'.
  rewrite Hcols. unfold drop_row, join_rows. cbn [attrs].
  rewrite (map_fst_filter (fun k => negb (mem k ["index_right"]))).
  rewrite map_app. cbn [map fst].
  rewrite !rename_keys_fst, (Hwf f Hf), (Hwf' c Hc). reflexivity.
Qed.

Lemma filtered_frame_is_well_formed_witness : wf_frame Sample.sample_filtered.
Proof.
  apply (@filtered_frame_is_well_formed Sample.fire_gdf Sample.countries_gdf
           [Print "Filtering fire data..."]).
  - unfold wf_frame. simpl. repeat constructor.
  - unfold wf_frame. simpl. repeat constructor.
  - vm_compute. reflexivity.
Defined.

(** ** Publisher: failures *)

(** X10. When the publisher raises, it has not printed "Publishing
    complete!", and either no mutation was requested (the login, the
    conversion, the search or the access to the found item failed) or the
    only mutation requested is the overwrite or the creation that raised. *)
Theorem publisher_failure_requests_at_most_the_failed_mutation
  (w : World) (filtered_gdf : GeoDataFrame PointGeom) t e :
  publish_to_arcgis w filtered_gdf = (t, inl e) ->
  ~ In (Print "Publishing complete!") t
  /\ (mutations t = []
      \/ (exists item items,
            content_search w ITEM_TITLE "Feature Layer" = inr (item :: items)
            /\ overwrite w item filtered_gdf = inl e
            /\ mutations t = [CallOverwrite item filtered_gdf])
      \/ (content_search w ITEM_TITLE "Feature Layer" = inr []
          /\ to_featurelayer w ITEM_TITLE filtered_gdf = inl e
          /\ mutations t = [CallToFeatureLayer ITEM_TITLE filtered_gdf])).
Proof.
  unfold publish_to_arcgis, bind, call, print.
  destruct (GIS w PORTAL_URL USERNAME PASSWORD) as [e1 | []].
  { intros H. inversion H; subst. split; [simpl; intuition discriminate | now left]. }
  destruct (from_geodataframe w filtered_gdf) as [e2 | []].
  { intros H. inversion H; subst. split; [simpl; intuition discriminate | now left]. }
  destruct (content_search w ITEM_TITLE "Feature Layer") as [e3 | [| item items]].
  { intros H. inversion H; subst. split; [simpl; intuition discriminate | now left]. }
  - destruct (to_featurelayer w ITEM_TITLE filtered_gdf) as [e4 | []] eqn:Hcreate;
      [| discriminate].
    intros H. inversion H; subst. split; [simpl; intuition discriminate |].
    right. right. auto.
  - destruct (fromitem w item) as [e4 | []].
    { intros H. inversion H; subst. split; [simpl; intuition discriminate | now left]. }
    destruct (overwrite w item filtered_gdf) as [e5 | []] eqn:Hover; [| discriminate].
    intros H. inversion H; subst. split; [simpl; intuition discriminate |].
    right. left. exists item, items. auto.
Qed.

Lemma publisher_failure_requests_at_most_the_failed_mutation_witness :
  ~ In (Print "Publishing complete!")
       [Print "Publishing to ArcGIS Online..."; CallGIS PORTAL_URL USERNAME PASSWORD]
  /\ (mutations [Print "Publishing to ArcGIS Online...";
                 CallGIS PORTAL_URL USERNAME PASSWORD] = []
      \/ (exists item items,
            content_search Sample.world_with_locked_portal ITEM_TITLE "Feature Layer"
            = inr (item :: items)
            /\ overwrite Sample.world_with_locked_portal item Sample.sample_filtered
               = inl (LibraryError "Exception" "Invalid username or password.")
            /\ mutations [Print "Publishing to ArcGIS Online...";
                          CallGIS PORTAL_URL USERNAME PASSWORD]
               = [CallOverwrite item Sample.sample_filtered])
      \/ (content_search Sample.world_with_locked_portal ITEM_TITLE "Feature Layer"
          = inr []
          /\ to_featurelayer Sample.world_with_locked_portal ITEM_TITLE
               Sample.sample_filtered
             = inl (LibraryError "Exception" "Invalid username or password.")
          /\ mutations [Print "Publishing to ArcGIS Online...";
                        CallGIS PORTAL_URL USERNAME PASSWORD]
             = [CallToFeatureLayer ITEM_TITLE Sample.sample_filtered])).
Proof.
  apply (@publisher_failure_requests_at_most_the_failed_mutation
           Sample.world_with_locked_portal Sample.sample_filtered).
  reflexivity.
Defined.

(** ** The whole run *)

Lemma fetch_fire_data_no_portal_call w :
  filter is_portal_call (fst (fetch_fire_data w)) = [].
Proof. now rewrite fetch_fire_data_trace. Qed.

Lemma fetch_country_boundaries_no_portal_call w :
  filter is_portal_call (fst (fetch_country_boundaries w)) = [].
Proof.
  rewrite fetch_country_boundaries_trace.
  destruct (requests_get w COUNTRIES_URL) as [e | response]; [reflexivity |].
  destruct (raise_for_status response); reflexivity.
Qed.

Lemma filter_fire_data_no_portal_call fire_gdf countries_gdf :
  filter is_portal_call (fst (filter_fire_data fire_gdf countries_gdf)) = [].
Proof. now rewrite filter_fire_data_trace. Qed.

(** X11. No run, completed or not, requests more than one mutation of the
    portal: a run never overwrites twice, never creates twice, and never both
    overwrites and creates. *)
Theorem run_requests_at_most_one_mutation (w : World) :
  List.length (mutations (fst (main w))) <= 1.
Proof.
  rewrite main_unfold, pipeline_unfold.
  pose proof (fetch_fire_data_no_mutation w) as M1.
  pose proof (fetch_country_boundaries_no_mutation w) as M2.
  destruct (fetch_fire_data w) as [t1 [e | fire_gdf]]; cbn [fst] in M1.
  { cbn [fst]. rewrite mutations_app, M1. simpl. lia. }
  destruct (fetch_country_boundaries w) as [t2 [e | countries_gdf]]; cbn [fst] in M2.
  { cbn [fst]. rewrite !mutations_app, M1, M2. simpl. lia. }
  pose proof (filter_fire_data_no_mutation fire_gdf countries_gdf) as M3.
  destruct (filter_fire_data fire_gdf countries_gdf) as [t3 [e | filtered_gdf]];
    cbn [fst] in M3.
  { cbn [fst]. rewrite !mutations_app, M1, M2, M3. simpl. lia. }
  cbv zeta.
  pose proof (publish_to_arcgis_mutations w filtered_gdf) as M4.
  destruct (publish_to_arcgis w filtered_gdf) as [t4 [e | []]]; cbn [fst] in M4 |- *.
  - rewrite !mutations_app, mutations_cons_print, M1, M2, M3.
    cbn [app mutations filter is_mutation]. rewrite app_nil_r. exact M4.
  - rewrite !mutations_app, mutations_cons_print, mutations_app, M1, M2, M3.
    cbn [app mutations filter is_mutation]. rewrite app_nil_r. exact M4.
Qed.

(** X12. The stages run one after the other, each only if the ones before
    it have returned: the boundaries are requested only if the fire fetcher
    has returned, and the portal is contacted only if the two fetchers and
    the spatial filter have returned. *)
Theorem stages_run_in_order (w : World) :
  (In (CallGet COUNTRIES_URL) (fst (main w)) ->
   exists t1 fire_gdf, fetch_fire_data w = (t1, inr fire_gdf))
  /\ (filter is_portal_call (fst (main w)) <> [] ->
      exists t1 fire_gdf t2 countries_gdf t3 filtered_gdf,
        fetch_fire_data w = (t1, inr fire_gdf)
        /\ fetch_country_boundaries w = (t2, inr countries_gdf)
        /\ filter_fire_data fire_gdf countries_gdf = (t3, inr filtered_gdf)).
Proof.
  rewrite main_unfold, pipeline_unfold.
  pose proof (fetch_fire_data_trace w) as T1.
  pose proof (fetch_fire_data_no_portal_call w) as P1.
  pose proof (fetch_country_boundaries_no_portal_call w) as P2.
  destruct (fetch_fire_data w) as [t1 [e | fire_gdf]] eqn:H1; cbn [fst] in T1, P1.
  { cbn [fst]. split.
    - subst t1. simpl. intuition discriminate.
    - rewrite filter_app, P1. simpl. congruence. }
  split; [intros _; now exists t1, fire_gdf |].
  destruct (fetch_country_boundaries w) as [t2 [e | countries_gdf]] eqn:H2;
    cbn [fst] in P2.
  { cbn [fst]. rewrite !filter_app, P1, P2. simpl. congruence. }
  pose proof (filter_fire_data_no_portal_call fire_gdf countries_gdf) as P3.
  destruct (filter_fire_data fire_gdf countries_gdf) as [t3 [e | filtered_gdf]] eqn:H3;
    cbn [fst] in P3.
  { cbn [fst]. rewrite !filter_app, P1, P2, P3. simpl. congruence. }
  intros _. exists t1, fire_gdf, t2, countries_gdf, t3, filtered_gdf. auto.
Qed.

Lemma stages_run_in_order_witness :
  exists t1 fire_gdf, fetch_fire_data Sample.world = (t1, inr fire_gdf).
Proof.
  apply (proj1 (stages_run_in_order Sample.world)).
  vm_compute. auto 10.
Defined.

Lemma python_stdout (script : M unit) : stdout (python script) = stdout_of (fst script).
Proof. unfold python. now destruct script as [t [e | a]]. Qed.

Ltac no_success_line :=
  let H := fresh "H" in
  intros H; inversion H; subst; simpl; intuition discriminate.

Lemma failed_run_prints_no_success_line w t e :
  pipeline w = (t, inl e) ->
  ~ In "Process completed successfully!"%string (stdout_of t).
Proof.
  rewrite pipeline_unfold.
  pose proof (fetch_fire_data_trace w) as T1.
  pose proof (fetch_country_boundaries_trace w) as T2.
  destruct (fetch_fire_data w) as [t1 [e1 | fire_gdf]]; cbn [fst] in T1; subst t1;
    [no_success_line |].
  destruct (fetch_country_boundaries w) as [t2 [e2 | countries_gdf]]; cbn [fst] in T2;
    subst t2.
  { destruct (requests_get w COUNTRIES_URL) as [e' | response]; [no_success_line |].
    destruct (raise_for_status response); no_success_line. }
  pose proof (filter_fire_data_trace fire_gdf countries_gdf) as T3.
  destruct (filter_fire_data fire_gdf countries_gdf) as [t3 [e3 | filtered_gdf]];
    cbn [fst] in T3; subst t3.
  { destruct (requests_get w COUNTRIES_URL) as [e' | response]; [no_success_line |].
    destruct (raise_for_status response); no_success_line. }
  cbv zeta. unfold publish_to_arcgis, bind, call, print.
  destruct (requests_get w COUNTRIES_URL) as [e' | response];
    [| destruct (raise_for_status response) as [e'' | []]];
    (destruct (GIS w PORTAL_URL USERNAME PASSWORD) as [e4 | []]; [no_success_line |];
     destruct (from_geodataframe w filtered_gdf) as [e5 | []]; [no_success_line |];
     destruct (content_search w ITEM_TITLE "Feature Layer") as [e6 | [| item items]];
       [no_success_line | |];
     [ destruct (to_featurelayer w ITEM_TITLE filtered_gdf) as [e7 | []]; no_success_line
     | destruct (fromitem w item) as [e7 | []]; [no_success_line |];
       destruct (overwrite w item filtered_gdf) as [e8 | []]; no_success_line ]).
Qed.

(** X13. Standard output tells how the run ended.  A run that completes
    prints the eight progress lines, in order, with the number of records of
    the filtered frame in the fourth and "Updating existing layer..." or
    "Creating a new feature layer..." in the sixth according to whether the
    search returned an item.  A run that fails ends its output with "Error: "
    and the description of the error, and never prints "Process completed
    successfully!". *)
Theorem stdout_tells_how_the_run_ended (w : World) :
  (forall t, pipeline w = (t, inr tt) ->
     exists t1 fire_gdf t2 countries_gdf t3 filtered_gdf items,
       fetch_fire_data w = (t1, inr fire_gdf)
       /\ fetch_country_boundaries w = (t2, inr countries_gdf)
       /\ filter_fire_data fire_gdf countries_gdf = (t3, inr filtered_gdf)
       /\ content_search w ITEM_TITLE "Feature Layer" = inr items
       /\ stdout (python (main w))
          = ["Fetching fire data..."; "Fetching country boundaries...";
             "Filtering fire data...";
             "Filtered " ++ str_of_nat (len filtered_gdf) ++ " fire records.";
             "Publishing to ArcGIS Online...";
             match items with
             | [] => "Creating a new feature layer..."
             | _ :: _ => "Updating existing layer..."
             end;
             "Publishing complete!"; "Process completed successfully!"]%string)
  /\ (forall t e, pipeline w = (t, inl e) ->
        last (stdout (python (main w))) EmptyString = ("Error: " ++ exn_str e)%string
        /\ ~ In "Process completed successfully!"%string (stdout (python (main w)))).
Proof.
  split.
  - intros t H.
    destruct (pipeline_inv _ H)
      as (t1 & fire_gdf & t2 & countries_gdf & t3 & filtered_gdf & t4
          & H1 & H2 & H3 & H4 & Ht & _).
    destruct (publish_to_arcgis_inv _ _ H4) as (_ & _ & items & Hsearch & Hpub).
    exists t1, fire_gdf, t2, countries_gdf, t3, filtered_gdf, items.
    repeat (split; [assumption |]).
    rewrite python_stdout, main_unfold, H. cbn [fst]. rewrite Ht.
    pose proof (fetch_fire_data_trace w) as T1. rewrite H1 in T1. cbn [fst] in T1.
    pose proof (fetch_country_boundaries_trace w) as T2. rewrite H2 in T2.
    cbn [fst] in T2.
    pose proof (filter_fire_data_trace fire_gdf countries_gdf) as T3.
    rewrite H3 in T3. cbn [fst] in T3. subst t1 t2 t3.
    rewrite !stdout_of_app.
    assert (Ht4 : stdout_of t4
                  = ["Publishing to ArcGIS Online...";
                     match items with
                     | [] => "Creating a new feature layer..."
                     | _ :: _ => "Updating existing layer..."
                     end; "Publishing complete!"]%string).
    { destruct items as [| item items].
      - destruct Hpub as [_ ->]. reflexivity.
      - destruct Hpub as (_ & _ & ->). reflexivity. }
    rewrite app_comm_cons, !stdout_of_app.
    change (stdout_of (Print ?line :: t4)) with (line :: stdout_of t4).
    rewrite Ht4.
    destruct (requests_get w COUNTRIES_URL) as [e | response];
      [| destruct (raise_for_status response)]; reflexivity.
  - intros t e H. rewrite python_stdout, main_unfold, H. cbn [fst]. split.
    + apply stdout_last.
    + rewrite stdout_of_app. intros Hin. apply in_app_or in Hin.
      destruct Hin as [Hin | Hin].
      * exact (failed_run_prints_no_success_line _ H Hin).
      * simpl in Hin. intuition discriminate.
Qed.

Lemma stdout_tells_how_the_run_ended_witness :
  last (stdout (python (main Sample.world_with_full_portal))) EmptyString
  = ("Error: " ++ exn_str (LibraryError "Exception" "Quota exceeded."))%string
  /\ ~ In "Process completed successfully!"%string
          (stdout (python (main Sample.world_with_full_portal))).
Proof.
  apply (proj2 (stdout_tells_how_the_run_ended Sample.world_with_full_portal)
           (fst (pipeline Sample.world_with_full_portal))).
  vm_compute. reflexivity.
Defined.

(** ** From the feed to the portal *)

Lemma In_enumerate {A} (l : list A) s i x :
  In (i, x) (combine (seq s (List.length l)) l) ->
  s <= i /\ nth_error l (i - s) = Some x.
Proof.
  revert s. induction l as [| a l IH]; intros s H; simpl in H; [contradiction |].
  destruct H as [H | H].
  - inversion H; subst. rewrite Nat.sub_diag. auto.
  - apply IH in H. destruct H as [Hle Hn]. split; [lia |].
    replace (i - s) with (S (i - S s)) by lia. exact Hn.
Qed.

Lemma nth_error_combine_inv {A B} (l : list A) (l' : list B) i a b :
  nth_error (combine l l') i = Some (a, b) ->
  nth_error l i = Some a /\ nth_error l' i = Some b.
Proof.
  revert l' i. induction l as [| x l IH]; intros [| y l'] [| i] H; simpl in *;
    try discriminate.
  - inversion H; subst. auto.
  - now apply IH.
Qed.

Lemma point_of_row_inv row g :
  point_of_row row = inr g ->
  exists lat lon, lookup "latitude" row = Some (CNum lat)
                  /\ lookup "longitude" row = Some (CNum lon)
                  /\ g = Point lon lat.
Proof.
  unfold point_of_row, getitem.
  destruct (lookup "longitude" row) as [[lon | s] |]; try discriminate;
    destruct (lookup "latitude" row) as [[lat | s'] |]; try discriminate.
  simpl. intros H. inversion H; subst. exists lat, lon. auto.
Qed.

(** Where a record of the fire frame comes from. *)
Lemma fire_row_origin w t gdf f :
  fetch_fire_data w = (t, inr gdf) -> In f (rows gdf) ->
  exists fire_df row lat lon,
    read_csv w FIRE_DATA_URL = inr fire_df
    /\ nth_error (df_rows fire_df) (index f) = Some row
    /\ lookup "latitude" row = Some (CNum lat)
    /\ lookup "longitude" row = Some (CNum lon)
    /\ geometry f = Point lon lat.
Proof.
  intros H Hf.
  destruct (fetch_fire_data_inv _ H) as (fire_df & values & Hcsv & Hm & -> & _).
  destruct (map_result_nth _ _ Hm) as [_ Hnth].
  unfold to_GeoDataFrame in Hf. cbn [rows] in Hf.
  apply in_map_iff in Hf. destruct Hf as ([i [row g]] & <- & Hin).
  apply In_enumerate in Hin. destruct Hin as [_ Hin]. rewrite Nat.sub_0_r in Hin.
  apply nth_error_combine_inv in Hin. destruct Hin as [Hrow Hg].
  destruct (Hnth i row Hrow) as (g' & Hg' & Hp).
  rewrite Hg in Hg'. inversion Hg'; subst g'.
  destruct (point_of_row_inv _ Hp) as (lat & lon & Hlat & Hlon & ->).
  exists fire_df, row, lat, lon. cbn [index geometry fst snd]. auto.
Qed.

(** X14. What reaches the portal.  In a run that completes, the single
    mutation carries a frame each record of which comes from a record of the
    feed, found at the position its index label gives, whose latitude and
    longitude are numbers; its geometry is the point (longitude, latitude),
    and that point is within the polygon of a downloaded boundary record
    whose COUNTRY is Brazil, Peru or Bolivia. *)
Theorem published_records_are_feed_points_within_an_allowed_country (w : World) t :
  pipeline w = (t, inr tt) ->
  exists fire_df response world_gdf published,
    read_csv w FIRE_DATA_URL = inr fire_df
    /\ requests_get w COUNTRIES_URL = inr response
    /\ read_file w (text response) = inr world_gdf
    /\ ((exists item, mutations t = [CallOverwrite item published])
        \/ mutations t = [CallToFeatureLayer ITEM_TITLE published])
    /\ forall r, In r (rows published) ->
         exists row lat lon c name,
           nth_error (df_rows fire_df) (index r) = Some row
           /\ lookup "latitude" row = Some (CNum lat)
           /\ lookup "longitude" row = Some (CNum lon)
           /\ geometry r = Point lon lat
           /\ In c (rows world_gdf)
           /\ lookup "COUNTRY" (attrs c) = Some (CStr name)
           /\ In name COUNTRIES_TO_KEEP
           /\ within (Point lon lat) (geometry c) = true.
Proof.
  intros H.
  destruct (pipeline_inv _ H)
    as (t1 & fire_gdf & t2 & countries_gdf & t3 & filtered_gdf & t4
        & H1 & H2 & H3 & H4 & _ & Hmut).
  destruct (publish_to_arcgis_inv _ _ H4) as (_ & _ & items & _ & Hpub).
  destruct (fetch_fire_data_inv _ H1) as (fire_df & _ & Hcsv & _).
  destruct (fetch_country_boundaries_inv _ H2)
    as (response & world_gdf & Hget & _ & Hread & _ & Hkept).
  exists fire_df, response, world_gdf, filtered_gdf.
  repeat (split; [assumption |]). split.
  - rewrite Hmut. destruct items as [| item items].
    + destruct Hpub as [_ ->]. now right.
    + destruct Hpub as (_ & _ & ->). left. now exists item.
  - intros r Hr.
    destruct (@filtered_rows_origin _ _ _ _ _ H3 Hr) as (f & c & Hf & Hc & Hw & ->).
    destruct (@fire_row_origin _ _ _ _ H1 Hf)
      as (fire_df' & row & lat & lon & Hcsv' & Hrow & Hlat & Hlon & Hgeom).
    rewrite Hcsv in Hcsv'. inversion Hcsv'; subst fire_df'.
    rewrite Hkept in Hc. cbn [rows] in Hc. apply filter_In in Hc.
    destruct Hc as [Hc Hkeep]. unfold isin in Hkeep.
    destruct (lookup "COUNTRY" (attrs c)) as [[q | name] |] eqn:Hname;
      try discriminate.
    exists row, lat, lon, c, name. cbn [index geometry drop_row join_rows].
    rewrite Hgeom in Hw.
    repeat (split; [assumption |]). split; [now apply mem_In | exact Hw].
Qed.

Lemma published_records_are_feed_points_within_an_allowed_country_witness :
  exists fire_df response world_gdf published,
    read_csv Sample.world FIRE_DATA_URL = inr fire_df
    /\ requests_get Sample.world COUNTRIES_URL = inr response
    /\ read_file Sample.world (text response) = inr world_gdf
    /\ ((exists item, mutations (fst (pipeline Sample.world))
                      = [CallOverwrite item published])
        \/ mutations (fst (pipeline Sample.world))
           = [CallToFeatureLayer ITEM_TITLE published])
    /\ forall r, In r (rows published) ->
         exists row lat lon c name,
           nth_error (df_rows fire_df) (index r) = Some row
           /\ lookup "latitude" row = Some (CNum lat)
           /\ lookup "longitude" row = Some (CNum lon)
           /\ geometry r = Point lon lat
           /\ In c (rows world_gdf)
           /\ lookup "COUNTRY" (attrs c) = Some (CStr name)
           /\ In name COUNTRIES_TO_KEEP
           /\ within (Point lon lat) (geometry c) = true.
Proof.
  apply (@published_records_are_feed_points_within_an_allowed_country Sample.world).
  vm_compute. reflexivity.
Defined.
